(** * Travel-Agent-Flowise: the HTTP relay of [app.py]

  A shallow embedding of the two request handlers of [app.py]
  ([ask_bot], served at [/ask], and [send_itinerary], served at
  [/send_itinerary]) together with [allowed_file] and [health].

  Python values are modelled as the code sees them:
  - [str] is [string]; every [ascii] stands for one character of the
    Python string (slicing and [len] count characters);
  - the values produced by a JSON decoder are the inductive [json]
    (a [dict] is an association list, looked up from the front);
  - exceptions are values of [pyexn]; a handler that lets one escape
    ends in [Raise];
  - everything a handler does to the outside world (uuid generation,
    the outbound POST, file system, logging, SMTP) is a node of an
    effect tree [prog], whose answer is chosen by the environment. *)

From Stdlib Require Import String Ascii List ZArith Lia Bool.
From Stdlib Require Finite.
From Stdlib Require Import Floats.SpecFloat.
From Stdlib Require Init.Byte.
Import ListNotations.
Local Open Scope string_scope.
Local Open Scope list_scope.

Local Set Warnings "-register-all".

(* ================================================================= *)
(** ** Python strings *)

Module PyStr.

(** [c in s] for a one-character needle. *)
Fixpoint contains (c : ascii) (s : string) : bool :=
  match s with
  | EmptyString => false
  | String a s' => if Ascii.eqb a c then true else contains c s'
  end.

(** Split at the last occurrence of [sep]; [None] when [sep] does not
    occur. *)
Fixpoint rsplit_last (sep : ascii) (s : string) : option (string * string) :=
  match s with
  | EmptyString => None
  | String a s' =>
      match rsplit_last sep s' with
      | Some (h, t) => Some (String a h, t)
      | None => if Ascii.eqb a sep then Some (EmptyString, s') else None
      end
  end.

(** [s.rsplit(sep, 1)]: at most one split, made from the right. *)
Definition rsplit1 (sep : ascii) (s : string) : list string :=
  match rsplit_last sep s with
  | Some (h, t) => [h; t]
  | None => [s]
  end.

(** [str.lower] on one character.  Only [A]..[Z] are mapped; the
    characters outside ASCII that Python's [lower] changes never
    become one of the letters used by the allow-list below. *)
Definition lower_char (c : ascii) : ascii :=
  let n := nat_of_ascii c in
  if (65 <=? n)%nat && (n <=? 90)%nat then ascii_of_nat (n + 32) else c.

Fixpoint lower (s : string) : string :=
  match s with
  | EmptyString => EmptyString
  | String a s' => String (lower_char a) (lower s')
  end.

(** [s[:n]] *)
Definition slice_to (n : nat) (s : string) : string := substring 0 n s.

(** [s.startswith(c)] for a one-character prefix. *)
Definition starts_with (c : ascii) (s : string) : bool :=
  match s with
  | String a _ => Ascii.eqb a c
  | EmptyString => false
  end.

(** Truth value of a [str]. *)
Definition truthy (s : string) : bool :=
  match s with EmptyString => false | _ => true end.

(** Truth value of an expression that is a [str] or [None]. *)
Definition truthy_opt (o : option string) : bool :=
  match o with Some s => truthy s | None => false end.

(** [x in S] for a set of strings. *)
Definition mem (x : string) (S : list string) : bool :=
  existsb (String.eqb x) S.

End PyStr.

(* ================================================================= *)
(** ** JSON values, as [json.loads] / [resp.json()] produce them *)

Inductive json : Type :=
| JNull                                  (* None *)
| JBool (b : bool)
| JInt (z : Z)
| JFloat (f : spec_float)
| JStr (s : string)
| JArr (l : list json)
| JObj (d : list (string * json)).       (* dict *)

Module PyJson.

(** Python's truth value: [None], [False], zero, the empty string,
    list and dict are false, everything else (NaN included) is true. *)
Definition truthy (v : json) : bool :=
  match v with
  | JNull => false
  | JBool b => b
  | JInt z => negb (Z.eqb z 0)
  | JFloat (S754_zero _) => false
  | JFloat _ => true
  | JStr s => PyStr.truthy s
  | JArr l => match l with [] => false | _ => true end
  | JObj d => match d with [] => false | _ => true end
  end.

(** The entry stored under [k], if any. *)
Fixpoint lookup (k : string) (d : list (string * json)) : option json :=
  match d with
  | [] => None
  | (k', v) :: d' => if String.eqb k' k then Some v else lookup k d'
  end.

(** [d.get(k, default)] on a dict. *)
Definition dict_get (d : list (string * json)) (k : string) (default : json)
  : json :=
  match lookup k d with Some v => v | None => default end.

(** [a or b] *)
Definition por (a b : json) : json := if truthy a then a else b.

End PyJson.

(* ================================================================= *)
(** ** Exceptions, HTTP objects and configuration *)

Inductive exn_class : Type :=
| RequestException      (* requests.RequestException and subclasses *)
| ValueError            (* ValueError and subclasses (JSONDecodeError,
                           UnicodeError) *)
| AttributeError
| IndexError
| OSError
| RecursionError
| OtherException.

Record pyexn : Type := mk_exn { exn_kind : exn_class; exn_str : string }.

(** Outcome of a call that may raise. *)
Inductive pyresult (X : Type) : Type :=
| Ok (x : X)
| Exn (e : pyexn).
Arguments Ok {X} x.
Arguments Exn {X} e.

Definition is_request_exception (e : pyexn) : bool :=
  match exn_kind e with RequestException => true | _ => false end.

(** [except ValueError] catches [e]. *)
Definition is_value_error (e : pyexn) : bool :=
  match exn_kind e with ValueError => true | _ => false end.

(** What [requests.post] hands back.  [resp_json] is the outcome of
    [resp.json()]: the decoded value, or the exception the call raises
    (a [ValueError] when the decoder rejects the body, but also, for
    instance, a [RecursionError] on a body nested too deeply). *)
Record response : Type := mk_response {
  status_code : Z;
  text : string;
  resp_json : pyresult json
}.

(** A werkzeug [FileStorage]. *)
Record FileStorage : Type := mk_file {
  filename : option string;
  mimetype : string;
  stream : list Byte.byte
}.

(** The parts of flask's [request] the handlers read.  [get_json] is
    the outcome of [request.get_json(force=True, silent=True)]: the
    decoded value; [None] when the body is absent or the decoder
    rejects it with a [ValueError], which [silent] swallows; or the
    exception the call lets through ([silent] swallows nothing else,
    so a [RecursionError] on a body nested too deeply is raised). *)
Record request : Type := mk_request {
  form : list (string * string);
  files : list (string * FileStorage);
  get_json : pyresult (option json)
}.

(** [MultiDict.get]: the first value stored under the key. *)
Fixpoint multi_get {V : Type} (k : string) (d : list (string * V)) : option V :=
  match d with
  | [] => None
  | (k', v) :: d' => if String.eqb k' k then Some v else multi_get k d'
  end.

(** The module-level settings, read from the environment at start-up. *)
Record config : Type := mk_config {
  FLOWISE_API_URL : string;
  FLOWISE_API_KEY : option string;
  GMAIL_USER : option string;
  GMAIL_PASS : option string
}.

Definition UPLOAD_FOLDER : string := "uploads".

Definition ALLOWED_EXT : list string :=
  ["png"; "jpg"; "jpeg"; "gif"; "bmp"; "webp"].

(** The value [jsonify(body), status] returned by a view. *)
Record reply : Type := mk_reply { body : json; status : Z }.

Definition jsonify (d : list (string * json)) : json := JObj d.

(** A [MIMEText] message with the three headers the handler sets. *)
Record mime_text : Type := mk_mime {
  mime_payload : string;
  mime_subject : json;
  mime_from : option string;
  mime_to : json
}.

(* ================================================================= *)
(** ** Effect trees *)

Inductive log_level : Type := LogError | LogException.

(** One constructor per interaction with the outside world; the index
    is the type of the environment's answer. *)
Inductive effect : Type -> Type :=
| Uuid4 : effect string
| FileSave (path : string) (content : list Byte.byte) : effect (pyresult unit)
| FileRead (path : string) : effect (pyresult (list Byte.byte))
| RequestsPost (url : string) (payload : json)
    (headers : list (string * string)) (timeout : Z)
  : effect (pyresult response)
| Logging (level : log_level) (msg : string) : effect unit
| SmtpConnect (host : string) (port : Z) : effect (pyresult unit)
| SmtpLogin (user password : option string) : effect (pyresult unit)
| SmtpSendmail (from_addr : option string) (to_addrs : list json)
    (msg : string) : effect (pyresult unit)
| SmtpQuit : effect (pyresult unit).

Inductive prog (A : Type) : Type :=
| Ret (a : A)
| Raise (e : pyexn)
| Vis (X : Type) (e : effect X) (k : X -> prog A).
Arguments Ret {A} a.
Arguments Raise {A} e.
Arguments Vis {A X} e k.

Fixpoint bind {A B : Type} (p : prog A) (f : A -> prog B) : prog B :=
  match p with
  | Ret a => f a
  | Raise e => Raise e
  | Vis e k => Vis e (fun x => bind (k x) f)
  end.

Definition trigger {X : Type} (e : effect X) : prog X := Vis e Ret.

(** A call whose exception is not caught at the call site. *)
Definition call {X : Type} (e : effect (pyresult X)) : prog X :=
  Vis e (fun r => match r with Ok x => Ret x | Exn ex => Raise ex end).

Declare Scope prog_scope.
Delimit Scope prog_scope with prog.
Notation "x <- p ;; q" := (bind p (fun x => q))
  (at level 61, p at next level, right associativity) : prog_scope.
Notation "p ;; q" := (bind p (fun _ => q))
  (at level 61, right associativity) : prog_scope.
Local Open Scope prog_scope.

(** One observed interaction: the effect and the environment's answer. *)
Inductive event : Type :=
| Ev (X : Type) (e : effect X) (x : X).
Arguments Ev {X} e x.

(** How a handler run ends: a reply, or an exception that escaped. *)
Inductive outcome (A : Type) : Type :=
| Done (a : A)
| Fault (e : pyexn).
Arguments Done {A} a.
Arguments Fault {A} e.

(** [exec p t r]: [p] can run with the interactions [t], in this
    order, and then ends in [r]. *)
Fixpoint exec {A : Type} (p : prog A) (t : list event) (r : outcome A) : Prop :=
  match p with
  | Ret a => t = [] /\ r = Done a
  | Raise e => t = [] /\ r = Fault e
  | Vis e k => exists x t', t = Ev e x :: t' /\ exec (k x) t' r
  end.

(** No effect satisfying [P] occurs on any path of the tree. *)
Fixpoint never {A : Type} (P : forall X, effect X -> bool) (p : prog A) : Prop :=
  match p with
  | Ret _ | Raise _ => True
  | Vis e k => P _ e = false /\ forall x, never P (k x)
  end.

Definition is_post {X : Type} (e : effect X) : bool :=
  match e with RequestsPost _ _ _ _ => true | _ => false end.

Definition is_smtp {X : Type} (e : effect X) : bool :=
  match e with
  | SmtpConnect _ _ | SmtpLogin _ _ | SmtpSendmail _ _ _ | SmtpQuit => true
  | _ => false
  end.

(** Trace observers: what the generator handed out, what was posted,
    what the backend answered, what was written to disk. *)
Definition drawn_uuid (ev : event) : list string :=
  match ev with
  | Ev e x =>
      match e in effect X return X -> list string with
      | Uuid4 => fun s => [s]
      | _ => fun _ => []
      end x
  end.

Definition posted_payload (ev : event) : list json :=
  match ev with
  | Ev (RequestsPost _ payload _ _) _ => [payload]
  | Ev _ _ => []
  end.

Definition post_result (ev : event) : list (pyresult response) :=
  match ev with
  | Ev e x =>
      match e in effect X return X -> list (pyresult response) with
      | RequestsPost _ _ _ _ => fun r => [r]
      | _ => fun _ => []
      end x
  end.

Definition saved_file (ev : event) : list (string * list Byte.byte) :=
  match ev with
  | Ev (FileSave path content) _ => [(path, content)]
  | Ev _ _ => []
  end.

Definition logged (ev : event) : list string :=
  match ev with
  | Ev (Logging _ msg) _ => [msg]
  | Ev _ _ => []
  end.

Definition uuids_drawn (t : list event) : list string := flat_map drawn_uuid t.
Definition payloads_posted (t : list event) : list json := flat_map posted_payload t.
Definition post_results (t : list event) : list (pyresult response) :=
  flat_map post_result t.
Definition files_saved (t : list event) : list (string * list Byte.byte) :=
  flat_map saved_file t.
Definition log_lines (t : list event) : list string := flat_map logged t.

(* ================================================================= *)
(** ** The application *)

(** [flowise_data.get(k, default)]: a [dict] answers, every other JSON
    value has no attribute [get]. *)
Definition py_get (v : json) (k : string) (default : json) : prog json :=
  match v with
  | JObj d => Ret (PyJson.dict_get d k default)
  | _ => Raise (mk_exn AttributeError "object has no attribute 'get'")
  end.

(** [None] or a [str], as a JSON value. *)
Definition json_of_opt (o : option string) : json :=
  match o with Some s => JStr s | None => JNull end.

(** [os.path.join(folder, name)] (POSIX). *)
Definition os_path_join (folder name : string) : string :=
  if PyStr.starts_with "/" name then name else (folder ++ "/" ++ name)%string.

(** [allowed_file], lines 36-37. *)
Definition allowed_file (filename : string) : prog bool :=
  if PyStr.contains "." filename then
    match nth_error (PyStr.rsplit1 "." filename) 1 with
    | Some ext => Ret (PyStr.mem (PyStr.lower ext) ALLOWED_EXT)
    | None => Raise (mk_exn IndexError "list index out of range")
    end
  else Ret false.

Definition health : prog reply :=
  Ret (mk_reply (jsonify [("status", JStr "ok")]) 200).

Section Handlers.

(** Pure library functions the handlers call; their results are
    passed on unchanged, so they stay abstract. *)
Variable secure_filename : string -> string.            (* werkzeug.utils *)
Variable guess_type : string -> option string.          (* mimetypes.guess_type(..)[0] *)
Variable b64encode : list Byte.byte -> string.          (* base64.b64encode(..).decode *)
Variable as_string : mime_text -> pyresult string.      (* Message.as_string *)

(** [MIMEText(text, "plain")] on a [str]: the exception the
    constructor raises, if any (a [UnicodeEncodeError] for a text that
    cannot be encoded, such as one holding a lone surrogate). *)
Variable mimetext_raises : string -> option pyexn.

Variable cfg : config.

(** Lines 108-122: what is done with the backend's answer. *)
Definition ask_respond (r : pyresult response) : prog reply :=
  match r with
  | Exn e =>
      if is_request_exception e then
        trigger (Logging LogException "Failed to call Flowise prediction endpoint") ;;
        Ret (mk_reply (jsonify [("error", JStr "failed to reach Flowise");
                                ("detail", JStr (exn_str e))]) 502)
      else Raise e
  | Ok resp =>
      match resp_json resp with
      | Exn e =>
          if is_value_error e then
            trigger (Logging LogError
                       ("Non-JSON response from Flowise: "
                          ++ PyStr.slice_to 500 (text resp))%string) ;;
            Ret (mk_reply
                   (jsonify [("error", JStr "invalid response from flowise");
                             ("raw", JStr (text resp))]) 500)
          else Raise e
      | Ok flowise_data =>
          t <- py_get flowise_data "text" JNull ;;
          answer <- (if PyJson.truthy t then Ret t
                     else a <- py_get flowise_data "answer" JNull ;;
                          Ret (PyJson.por a flowise_data)) ;;
          Ret (mk_reply (jsonify [("success", JBool true);
                                  ("answer", answer);
                                  ("raw", flowise_data)])
                        (if (status_code resp <? 400)%Z
                         then status_code resp else 200%Z))
      end
  end.

(** Lines 90-96: the payload sent to the prediction API. *)
Definition ask_payload (question : option string) (uploads : list json)
  (session_id : string) : json :=
  JObj [("question", json_of_opt question);
        ("uploads", JArr uploads);
        ("overrideConfig", JObj [("sessionId", JStr session_id)])].

(** Lines 98-100: the request headers. *)
Definition ask_headers : list (string * string) :=
  ("Content-Type", "application/json")
    :: match FLOWISE_API_KEY cfg with
       | Some key =>
           if PyStr.truthy key
           then [("Authorization", ("Bearer " ++ key)%string)]
           else []
       | None => []
       end.

(** Lines 90-103: draw the session id and make the one outbound call. *)
Definition ask_forward (question : option string) (uploads : list json)
  : prog reply :=
  sid <- trigger Uuid4 ;;
  r <- trigger (RequestsPost (FLOWISE_API_URL cfg)
                  (ask_payload question uploads sid) ask_headers 60) ;;
  ask_respond r.

(** Lines 67-87: validate, store and encode the attachment. *)
Definition ask_upload (question : option string) (file : FileStorage)
  (fname : string) : prog reply :=
  ok <- allowed_file fname ;;
  if negb ok then
    Ret (mk_reply (jsonify [("error", JStr "file type not allowed")]) 400)
  else
    let filename := secure_filename fname in
    let filepath := os_path_join UPLOAD_FOLDER filename in
    call (FileSave filepath (stream file)) ;;
    raw <- call (FileRead filepath) ;;
    let mime :=
      if PyStr.truthy (mimetype file) then mimetype file
      else match guess_type filename with
           | Some m => if PyStr.truthy m then m else "application/octet-stream"
           | None => "application/octet-stream"
           end in
    let b64 := b64encode raw in
    let data_uri := ("data:" ++ mime ++ ";base64," ++ b64)%string in
    ask_forward question
      [JObj [("type", JStr "file"); ("name", JStr filename);
             ("data", JStr data_uri); ("mime", JStr mime)]].

(** [ask_bot], lines 56-122. *)
Definition ask_bot (req : request) : prog reply :=
  let question := multi_get "question" (form req) in
  if negb (PyStr.truthy_opt question) then
    Ret (mk_reply (jsonify [("error", JStr "question field is required")]) 400)
  else
    match multi_get "image" (files req) with
    | Some file =>
        match filename file with
        | Some fname =>
            if PyStr.truthy fname then ask_upload question file fname
            else ask_forward question []
        | None => ask_forward question []
        end
    | None => ask_forward question []
    end.

(** Leaving the [with smtplib.SMTP_SSL(..)] block: [__exit__] sends
    QUIT; an exception raised there replaces the pending one. *)
Definition smtp_exit (pending : pyresult unit) : prog (pyresult unit) :=
  q <- trigger SmtpQuit ;;
  Ret (match q with Exn e => Exn e | Ok _ => pending end).

(** Lines 150-152: the body of the [try]. *)
Definition smtp_block (recipient : json) (msg : mime_text)
  : prog (pyresult unit) :=
  c <- trigger (SmtpConnect "smtp.gmail.com" 465) ;;
  match c with
  | Exn e => Ret (Exn e)
  | Ok _ =>
      l <- trigger (SmtpLogin (GMAIL_USER cfg) (GMAIL_PASS cfg)) ;;
      match l with
      | Exn e => smtp_exit (Exn e)
      | Ok _ =>
          match as_string msg with
          | Exn e => smtp_exit (Exn e)
          | Ok s =>
              r <- trigger (SmtpSendmail (GMAIL_USER cfg) [recipient] s) ;;
              smtp_exit r
          end
      end
  end.

(** [send_itinerary], lines 130-156. *)
Definition send_itinerary (req : request) : prog reply :=
  match get_json req with
  | Exn e => Raise e                 (* line 132 is not inside a [try] *)
  | Ok parsed =>
  let data :=
    match parsed with
    | Some v => if PyJson.truthy v then v else JObj []
    | None => JObj []
    end in
  recipient <- py_get data "email" JNull ;;
  itinerary <- py_get data "itinerary" (JStr "") ;;
  subject <- py_get data "subject" (JStr "Travel Guide Bot: Landmark Details") ;;
  if negb (PyJson.truthy recipient) then
    Ret (mk_reply (jsonify [("error", JStr "email is required")]) 400)
  else if negb (PyStr.truthy_opt (GMAIL_USER cfg))
          || negb (PyStr.truthy_opt (GMAIL_PASS cfg)) then
    trigger (Logging LogError
               "Email credentials not configured on server environment") ;;
    Ret (mk_reply (jsonify [("error", JStr "email credentials not configured")]) 500)
  else
    match itinerary with
    | JStr body_text =>
        match mimetext_raises body_text with
        | Some e => Raise e          (* line 144 is not inside the [try] *)
        | None =>
            let msg := mk_mime body_text subject (GMAIL_USER cfg) recipient in
            r <- smtp_block recipient msg ;;
            match r with
            | Ok _ =>
                Ret (mk_reply (jsonify [("success", JBool true);
                                        ("status", JStr "Email sent")]) 200)
            | Exn e =>
                trigger (Logging LogException
                           "Failed to send itinerary email") ;;
                Ret (mk_reply (jsonify [("error", JStr "failed to send email");
                                        ("detail", JStr (exn_str e))]) 500)
            end
        end
    | _ => Raise (mk_exn AttributeError "object has no attribute 'encode'")
    end
  end.

End Handlers.

(* ================================================================= *)
(** ** What the specification says about file names *)

(** [ext] is the extension of [fname]: the text after its last dot. *)
Definition has_extension (fname ext : string) : Prop :=
  exists stem, fname = (stem ++ "." ++ ext)%string
               /\ PyStr.contains "." ext = false.

(** [fname] has no extension: it contains no dot at all. *)
Definition no_extension (fname : string) : Prop :=
  forall stem ext, fname <> (stem ++ "." ++ ext)%string.

(** Two strings that differ at most in the case of their letters. *)
Definition same_ignoring_case (a b : string) : Prop :=
  PyStr.lower a = PyStr.lower b.

(** The extension is absent, or matches no entry of the allow-set. *)
Definition extension_rejected (fname : string) : Prop :=
  no_extension fname
  \/ exists ext, has_extension fname ext
                 /\ forall a, In a ALLOWED_EXT -> ~ same_ignoring_case ext a.

(** The ordered fallback as the specification words it: [text] if
    present, else [answer] if present, else the whole body. *)
Definition spec_answer_if_present (d : list (string * json)) : json :=
  match PyJson.lookup "text" d with
  | Some v => v
  | None =>
      match PyJson.lookup "answer" d with
      | Some v => v
      | None => JObj d
      end
  end.

(** The same fallback, with "present" read as "present and true in
    Python's sense". *)
Definition answer_if_truthy (d : list (string * json)) : json :=
  match PyJson.lookup "text" d with
  | Some v => if PyJson.truthy v then v else
      match PyJson.lookup "answer" d with
      | Some w => if PyJson.truthy w then w else JObj d
      | None => JObj d
      end
  | None =>
      match PyJson.lookup "answer" d with
      | Some w => if PyJson.truthy w then w else JObj d
      | None => JObj d
      end
  end.

(** The value a payload carries at [overrideConfig.sessionId]. *)
Definition payload_session_id (payload : json) : json :=
  match payload with
  | JObj d =>
      match PyJson.dict_get d "overrideConfig" JNull with
      | JObj c => PyJson.dict_get c "sessionId" JNull
      | _ => JNull
      end
  | _ => JNull
  end.

(** The value a payload carries at [uploads]. *)
Definition payload_uploads (payload : json) : json :=
  match payload with
  | JObj d => PyJson.dict_get d "uploads" JNull
  | _ => JNull
  end.

(** [/ask] serving the requests [reqs] one after the other: the
    history is the concatenation of the handler runs. *)
Inductive serve_ask (sf : string -> string) (gt : string -> option string)
  (b64 : list Byte.byte -> string) (cfg : config)
  : list request -> list event -> list (outcome reply) -> Prop :=
| serve_nil : serve_ask sf gt b64 cfg [] [] []
| serve_cons req t res reqs h rs :
    exec (ask_bot sf gt b64 cfg req) t res ->
    serve_ask sf gt b64 cfg reqs h rs ->
    serve_ask sf gt b64 cfg (req :: reqs) (t ++ h) (res :: rs).

(** The events before the id is drawn: at most one save and one read
    of the attachment. *)
Definition upload_prefix (file : FileStorage) (pre : list event) : Prop :=
  uuids_drawn pre = [] /\ payloads_posted pre = [] /\ post_results pre = []
  /\ log_lines pre = []
  /\ forall p c, In (p, c) (files_saved pre) -> c = stream file.

(** The entry of a reply's JSON body under [k]. *)
Definition reply_field (k : string) (rep : reply) : option json :=
  match body rep with
  | JObj d => PyJson.lookup k d
  | _ => None
  end.

(* ================================================================= *)
(** ** Concrete inputs used by the examples *)

Module Sample.

Definition secure_filename (s : string) : string := s.
Definition guess_type (s : string) : option string := None.
Definition b64encode (raw : list Byte.byte) : string := "".
Definition as_string (m : mime_text) : pyresult string := Ok (mime_payload m).
Definition mimetext_raises (s : string) : option pyexn := None.

(** The default endpoint of lines 23-26, no API key, no mail account. *)
Definition cfg : config :=
  mk_config
    "http://localhost:3000/api/v1/prediction/e2b5a8fb-f99c-4818-a338-53e439ff1f79"
    None None None.

Definition question : string := "Where is the Eiffel Tower?".

(** A question and no attachment. *)
Definition req : request := mk_request [("question", question)] [] (Ok None).

(** The double quote character. *)
Definition dq : string := String (ascii_of_nat 34) EmptyString.

(** What the handler posts for [req] when the generator returns [sid]. *)
Definition post (sid : string) : effect (pyresult response) :=
  RequestsPost (FLOWISE_API_URL cfg) (ask_payload (Some question) [] sid)
    (ask_headers cfg) 60.

(** A run of [req] in which the backend answers [r]. *)
Definition run (sid : string) (r : pyresult response) : list event :=
  [Ev Uuid4 sid; Ev (post sid) r].

(** The backend answers [{text: empty string}] with status 200. *)
Definition resp_empty_text : response :=
  mk_response 200 ("{" ++ dq ++ "text" ++ dq ++ ": " ++ dq ++ dq ++ "}")%string
    (Ok (JObj [("text", JStr "")])).

(** The backend answers [{text: Paris}] with status 200. *)
Definition resp_paris : response :=
  mk_response 200
    ("{" ++ dq ++ "text" ++ dq ++ ": " ++ dq ++ "Paris" ++ dq ++ "}")%string
    (Ok (JObj [("text", JStr "Paris")])).

(** The backend answers the JSON array [[]] with status 200. *)
Definition resp_array : response := mk_response 200 "[]" (Ok (JArr [])).

(** 501 characters that are not JSON. *)
Definition long_text : string :=
  string_of_list_ascii (repeat "a"%char 501).

(** What [resp.json()] raises on a text that is no JSON. *)
Definition json_decode_error : pyexn :=
  mk_exn ValueError "Expecting value: line 1 column 1 (char 0)".

Definition resp_not_json : response :=
  mk_response 502 long_text (Exn json_decode_error).

Definition connection_refused : pyexn :=
  mk_exn RequestException "Connection refused".

(** An attachment whose extension is not allowed, and one with an
    empty file name. *)
Definition file_exe : FileStorage :=
  mk_file (Some "tower.exe") "application/octet-stream" [].
Definition file_unnamed : FileStorage :=
  mk_file (Some "") "application/octet-stream" [].

Definition req_exe : request :=
  mk_request [("question", question)] [("image", file_exe)] (Ok None).
Definition req_unnamed : request :=
  mk_request [("question", question)] [("image", file_unnamed)] (Ok None).

(** A mail request with a recipient, and one without a JSON body. *)
Definition mail_body : list (string * json) :=
  [("email", JStr "user@example.com"); ("itinerary", JStr "Day 1: Louvre")].
Definition req_mail : request := mk_request [] [] (Ok (Some (JObj mail_body))).
Definition req_mail_empty : request := mk_request [] [] (Ok None).

(** What the decoder raises on a body nested too deeply, such as
    100000 opening brackets. *)
Definition recursion_error : pyexn :=
  mk_exn RecursionError
    "maximum recursion depth exceeded while decoding a JSON array".

(** A mail request whose body is nested too deeply to decode. *)
Definition req_mail_deep : request := mk_request [] [] (Exn recursion_error).

(** A backend answer whose body is nested too deeply to decode. *)
Definition resp_deep : response :=
  mk_response 200 "[[[[[[[[ and so on" (Exn recursion_error).

End Sample.

(* ================================================================= *)
(** ** Further observers of runs and replies *)

(** The extension of [fname] matches an entry of the allow-set when
    case is ignored. *)
Definition extension_allowed (fname : string) : Prop :=
  exists ext a, has_extension fname ext /\ In a ALLOWED_EXT
                /\ same_ignoring_case ext a.

(** The MIME type given to an attachment stored under [name]: the type
    sent with the upload, else the type guessed from the name, else the
    generic binary type (line 78). *)
Definition upload_mime (guess_type : string -> option string)
  (file : FileStorage) (name : string) : string :=
  if PyStr.truthy (mimetype file) then mimetype file
  else match guess_type name with
       | Some m => if PyStr.truthy m then m else "application/octet-stream"
       | None => "application/octet-stream"
       end.

(** The entry appended to [uploads] for the attachment [file], sent
    under the name [fname], when [raw] was read back from disk
    (lines 70-87). *)
Definition upload_entry (secure_filename : string -> string)
  (guess_type : string -> option string)
  (b64encode : list Byte.byte -> string)
  (file : FileStorage) (fname : string) (raw : list Byte.byte) : json :=
  let name := secure_filename fname in
  let mime := upload_mime guess_type file name in
  JObj [("type", JStr "file"); ("name", JStr name);
        ("data", JStr ("data:" ++ mime ++ ";base64," ++ b64encode raw)%string);
        ("mime", JStr mime)].

(** Where the attachment sent under [fname] is stored (line 72). *)
Definition upload_path (secure_filename : string -> string) (fname : string)
  : string :=
  os_path_join UPLOAD_FOLDER (secure_filename fname).

(** The value a payload carries at [question]. *)
Definition payload_question (payload : json) : json :=
  match payload with
  | JObj d => PyJson.dict_get d "question" JNull
  | _ => JNull
  end.

(** The entry of a JSON object under [k], [None] (Python) if absent or
    if the value is not an object. *)
Definition json_field (k : string) (v : json) : json :=
  match v with
  | JObj d => PyJson.dict_get d k JNull
  | _ => JNull
  end.

(** Target, headers and timeout of the POSTs of a run. *)
Definition posted_request (ev : event)
  : list (string * list (string * string) * Z) :=
  match ev with
  | Ev (RequestsPost url _ headers timeout) _ => [(url, headers, timeout)]
  | Ev _ _ => []
  end.

Definition requests_posted (t : list event)
  : list (string * list (string * string) * Z) :=
  flat_map posted_request t.

(** Outcomes of the file operations of a run. *)
Definition storage_failure (ev : event) : list pyexn :=
  match ev with
  | Ev e x =>
      match e in effect X return X -> list pyexn with
      | FileSave _ _ => fun r => match r with Exn ex => [ex] | Ok _ => [] end
      | FileRead _ => fun r => match r with Exn ex => [ex] | Ok _ => [] end
      | _ => fun _ => []
      end x
  end.

Definition bytes_read (ev : event) : list (string * list Byte.byte) :=
  match ev with
  | Ev e x =>
      match e in effect X return X -> list (string * list Byte.byte) with
      | FileRead path =>
          fun r => match r with Ok raw => [(path, raw)] | Exn _ => [] end
      | _ => fun _ => []
      end x
  end.

Definition storage_failures (t : list event) : list pyexn :=
  flat_map storage_failure t.
Definition files_read (t : list event) : list (string * list Byte.byte) :=
  flat_map bytes_read t.

(** The SMTP traffic of a run: connections opened, logins, messages
    handed to [sendmail], and the exceptions the SMTP calls raised. *)
Definition smtp_connection (ev : event) : list (string * Z) :=
  match ev with
  | Ev (SmtpConnect host port) _ => [(host, port)]
  | Ev _ _ => []
  end.

Definition smtp_login (ev : event) : list (option string * option string) :=
  match ev with
  | Ev (SmtpLogin user password) _ => [(user, password)]
  | Ev _ _ => []
  end.

Definition smtp_message (ev : event)
  : list (option string * list json * string) :=
  match ev with
  | Ev (SmtpSendmail from_addr to_addrs msg) _ => [(from_addr, to_addrs, msg)]
  | Ev _ _ => []
  end.

Definition smtp_failure (ev : event) : list pyexn :=
  match ev with
  | Ev e x =>
      match e in effect X return X -> list pyexn with
      | SmtpConnect _ _ => fun r => match r with Exn ex => [ex] | Ok _ => [] end
      | SmtpLogin _ _ => fun r => match r with Exn ex => [ex] | Ok _ => [] end
      | SmtpSendmail _ _ _ =>
          fun r => match r with Exn ex => [ex] | Ok _ => [] end
      | SmtpQuit => fun r => match r with Exn ex => [ex] | Ok _ => [] end
      | _ => fun _ => []
      end x
  end.

Definition smtp_connections (t : list event) : list (string * Z) :=
  flat_map smtp_connection t.
Definition smtp_logins (t : list event)
  : list (option string * option string) :=
  flat_map smtp_login t.
Definition smtp_messages (t : list event)
  : list (option string * list json * string) :=
  flat_map smtp_message t.
Definition smtp_failures (t : list event) : list pyexn :=
  flat_map smtp_failure t.

(** The message built at lines 144-147 from a decoded body [d]. *)
Definition itinerary_message (cfg : config) (d : list (string * json))
  (body_text : string) : mime_text :=
  mk_mime body_text
    (PyJson.dict_get d "subject" (JStr "Travel Guide Bot: Landmark Details"))
    (GMAIL_USER cfg)
    (PyJson.dict_get d "email" JNull).

(** More concrete inputs. *)
Module Fixture.

(** An API key and a mail account are configured. *)
Definition cfg : config :=
  mk_config "http://flowise.internal/api/v1/prediction/abc"
    (Some "secret-key") (Some "bot@example.com") (Some "app-password").

Definition photo_bytes : list Byte.byte := [Byte.x89; Byte.x50; Byte.x4e; Byte.x47].

(** A PNG sent without a MIME type of its own. *)
Definition file_png : FileStorage := mk_file (Some "Tower.PNG") "" photo_bytes.

Definition req_png : request :=
  mk_request [("question", Sample.question)] [("image", file_png)] (Ok None).

Definition png_path : string := "uploads/Tower.PNG".

Definition disk_full : pyexn := mk_exn OSError "No space left on device".
Definition type_error : pyexn := mk_exn OtherException "unexpected".
Definition smtp_refused : pyexn := mk_exn OtherException "Connection refused".

(** The backend answers [{answer: Paris}] with status 404. *)
Definition resp_404 : response :=
  mk_response 404 "not shown" (Ok (JObj [("answer", JStr "Paris")])).

(** A mail request that names no subject. *)
Definition mail_body : list (string * json) :=
  [("email", JStr "user@example.com"); ("itinerary", JStr "Day 1: Louvre")].
Definition req_mail : request := mk_request [] [] (Ok (Some (JObj mail_body))).

(** Bodies that decode to JSON values other than objects. *)
Definition req_mail_array : request := mk_request [] [] (Ok (Some (JArr []))).
Definition req_mail_number : request := mk_request [] [] (Ok (Some (JInt 7))).

(** A [MIMEText] that refuses one text. *)
Definition unencodable : string := "lone surrogate".
Definition encode_error : pyexn :=
  mk_exn ValueError "'utf-8' codec can't encode character: surrogates not allowed".
Definition mimetext_raises (s : string) : option pyexn :=
  if String.eqb s unencodable then Some encode_error else None.
Definition req_mail_unencodable : request :=
  mk_request [] []
    (Ok (Some (JObj [("email", JStr "user@example.com");
                     ("itinerary", JStr unencodable)]))).

(** A mail request that names the recipient only. *)
Definition mail_body_bare : list (string * json) :=
  [("email", JStr "user@example.com")].
Definition req_mail_bare : request :=
  mk_request [] [] (Ok (Some (JObj mail_body_bare))).

(** The POST made for [Sample.req] under [cfg]. *)
Definition post (sid : string) : effect (pyresult response) :=
  RequestsPost (FLOWISE_API_URL cfg)
    (ask_payload (Some Sample.question) [] sid) (ask_headers cfg) 60.

Definition run (sid : string) (r : pyresult response) : list event :=
  [Ev Uuid4 sid; Ev (post sid) r].

(** The upload entry and the run for [req_png] when [raw] is read back. *)
Definition png_entry (raw : list Byte.byte) : json :=
  upload_entry Sample.secure_filename Sample.guess_type Sample.b64encode
    file_png "Tower.PNG" raw.

Definition png_payload (raw : list Byte.byte) (sid : string) : json :=
  ask_payload (Some Sample.question) [png_entry raw] sid.

Definition png_run (raw : list Byte.byte) (sid : string)
  (r : pyresult response) : list event :=
  [Ev (FileSave png_path photo_bytes) (Ok tt);
   Ev (FileRead png_path) (Ok raw);
   Ev Uuid4 sid;
   Ev (RequestsPost (FLOWISE_API_URL cfg) (png_payload raw sid)
         (ask_headers cfg) 60) r].

(** A delivery in which every SMTP call succeeds. *)
Definition mail_run (to_addr : json) (text : string) : list event :=
  [Ev (SmtpConnect "smtp.gmail.com" 465) (Ok tt);
   Ev (SmtpLogin (GMAIL_USER cfg) (GMAIL_PASS cfg)) (Ok tt);
   Ev (SmtpSendmail (GMAIL_USER cfg) [to_addr] text) (Ok tt);
   Ev SmtpQuit (Ok tt)].

(** The reply to a backend answer [{text: Paris}] with status 200. *)
Definition paris_reply : reply :=
  mk_reply (jsonify [("success", JBool true);
                     ("answer", JStr "Paris");
                     ("raw", JObj [("text", JStr "Paris")])]) 200.

Definition mail_sent : reply :=
  mk_reply (jsonify [("success", JBool true); ("status", JStr "Email sent")])
    200.

End Fixture.

(* ================================================================= *)
(** ** Strings *)

Lemma contains_append_sep (c : ascii) (a b : string) :
  PyStr.contains c (a ++ String c b) = true.
Proof.
  induction a as [|x a IH]; simpl.
  - now rewrite Ascii.eqb_refl.
  - destruct (Ascii.eqb x c); auto.
Qed.

Lemma contains_split (c : ascii) (s : string) :
  PyStr.contains c s = true -> exists a b, s = (a ++ String c b)%string.
Proof.
  induction s as [|x s IH]; simpl; [discriminate|].
  destruct (Ascii.eqb x c) eqn:E.
  - apply Ascii.eqb_eq in E; subst. intros _. now exists EmptyString, s.
  - intros H. destruct (IH H) as (a & b & ->). now exists (String x a), b.
Qed.

Lemma rsplit_last_none (c : ascii) (s : string) :
  PyStr.contains c s = false -> PyStr.rsplit_last c s = None.
Proof.
  induction s as [|x s IH]; simpl; [reflexivity|].
  destruct (Ascii.eqb x c); [discriminate|].
  intros H. now rewrite (IH H).
Qed.

Lemma rsplit_last_append (c : ascii) (stem ext : string) :
  PyStr.contains c ext = false ->
  PyStr.rsplit_last c (stem ++ String c ext) = Some (stem, ext).
Proof.
  intros Hext. induction stem as [|x stem IH]; simpl.
  - rewrite (rsplit_last_none _ _ Hext). now rewrite Ascii.eqb_refl.
  - now rewrite IH.
Qed.

Lemma lower_allowed (a : string) : In a ALLOWED_EXT -> PyStr.lower a = a.
Proof.
  unfold ALLOWED_EXT; simpl.
  intros H; repeat (destruct H as [<-|H]; [reflexivity|]); contradiction.
Qed.

Lemma mem_false (x : string) (S : list string) :
  (forall a, In a S -> x <> a) -> PyStr.mem x S = false.
Proof.
  intros H. unfold PyStr.mem.
  destruct (existsb (String.eqb x) S) eqn:E; [|reflexivity].
  apply existsb_exists in E. destruct E as (a & Ha & Heq).
  apply String.eqb_eq in Heq. now elim (H a Ha).
Qed.

Lemma mem_true (x : string) (S : list string) :
  In x S -> PyStr.mem x S = true.
Proof.
  intros H. apply existsb_exists. exists x. split; [assumption|].
  apply String.eqb_refl.
Qed.

(** [allowed_file] never raises: the index [1] is only taken when the
    name contains a dot. *)
Lemma allowed_file_total (fname : string) :
  exists b, allowed_file fname = Ret b.
Proof.
  unfold allowed_file. destruct (PyStr.contains "." fname) eqn:E.
  - destruct (contains_split _ _ E) as (a & b & ->).
    unfold PyStr.rsplit1.
    destruct (PyStr.rsplit_last "." (a ++ String "." b)) as [[h t]|] eqn:R.
    + simpl. eauto.
    + exfalso. clear E. revert R. induction a as [|x a IH]; simpl.
      * destruct (PyStr.rsplit_last "." b) as [[? ?]|]; discriminate.
      * destruct (PyStr.rsplit_last "." (a ++ String "." b)) as [[? ?]|];
          [discriminate|]. intros _. now apply IH.
  - eauto.
Qed.

Lemma allowed_file_no_extension (fname : string) :
  no_extension fname -> allowed_file fname = Ret false.
Proof.
  intros H. unfold allowed_file.
  destruct (PyStr.contains "." fname) eqn:E; [|reflexivity].
  destruct (contains_split _ _ E) as (a & b & ->). now elim (H a b).
Qed.

Lemma allowed_file_extension (fname ext : string) :
  has_extension fname ext ->
  allowed_file fname = Ret (PyStr.mem (PyStr.lower ext) ALLOWED_EXT).
Proof.
  intros (stem & -> & Hext). unfold allowed_file.
  change (stem ++ "." ++ ext)%string with (stem ++ String "." ext)%string.
  rewrite contains_append_sep. unfold PyStr.rsplit1.
  now rewrite (rsplit_last_append _ stem ext Hext).
Qed.

Lemma allowed_file_rejected (fname : string) :
  extension_rejected fname -> allowed_file fname = Ret false.
Proof.
  intros [H | (ext & Hext & Hno)].
  - now apply allowed_file_no_extension.
  - rewrite (allowed_file_extension _ _ Hext). f_equal.
    apply mem_false. intros a Ha Heq. apply (Hno a Ha).
    unfold same_ignoring_case. now rewrite (lower_allowed _ Ha).
Qed.

Example rsplit1_two_dots :
  PyStr.rsplit1 "." "a.b.c" = ["a.b"; "c"].
Proof. reflexivity. Qed.

Example rsplit1_no_dot : PyStr.rsplit1 "." "abc" = ["abc"].
Proof. reflexivity. Qed.

Example slice_to_short : PyStr.slice_to 500 "abc" = "abc".
Proof. reflexivity. Qed.

Example slice_to_cut : PyStr.slice_to 2 "abc" = "ab".
Proof. reflexivity. Qed.

Example allowed_file_photo : allowed_file "photo.PNG" = Ret true.
Proof. reflexivity. Qed.

Example allowed_file_archive : allowed_file "photo.png.exe" = Ret false.
Proof. reflexivity. Qed.

Example allowed_file_bare : allowed_file "README" = Ret false.
Proof. reflexivity. Qed.

(* ================================================================= *)
(** ** Runs of the [/ask] handler *)

Ltac exec_step H :=
  let x := fresh "x" in
  let t := fresh "t" in
  let E := fresh "E" in
  simpl in H; destruct H as (x & t & E & H); subst.

Ltac exec_end H :=
  let E := fresh "E" in
  simpl in H; destruct H as (E & H); subst.

(** After the POST the handler draws no id, posts nothing and writes
    no file. *)
Lemma exec_ask_respond_quiet (r : pyresult response) (t : list event)
  (res : outcome reply) :
  exec (ask_respond r) t res ->
  uuids_drawn t = [] /\ payloads_posted t = [] /\ post_results t = []
  /\ files_saved t = [].
Proof.
  unfold ask_respond. intros H.
  destruct r as [resp|e].
  - destruct (resp_json resp) as [data|e].
    + destruct data; simpl in H;
        try (destruct H as (-> & _); repeat split; reflexivity).
      destruct (PyJson.truthy (PyJson.dict_get d "text" JNull));
        simpl in H; destruct H as (-> & _); repeat split; reflexivity.
    + destruct (is_value_error e).
      * exec_step H. exec_end H. repeat split; reflexivity.
      * exec_end H. repeat split; reflexivity.
  - destruct (is_request_exception e).
    + exec_step H. exec_end H. repeat split; reflexivity.
    + exec_end H. repeat split; reflexivity.
Qed.

Section AskRuns.

Variable secure_filename : string -> string.
Variable guess_type : string -> option string.
Variable b64encode : list Byte.byte -> string.
Variable cfg : config.

Local Notation "'ask'" := (ask_bot secure_filename guess_type b64encode cfg).

(** A run of the forwarding step: one id is drawn, one POST carrying
    it is made, and the rest is decided by the backend's answer. *)
Lemma exec_ask_forward (q : option string) (ups : list json)
  (t : list event) (res : outcome reply) :
  exec (ask_forward cfg q ups) t res ->
  exists sid r t',
    t = Ev Uuid4 sid
          :: Ev (RequestsPost (FLOWISE_API_URL cfg) (ask_payload q ups sid)
                   (ask_headers cfg) 60) r
          :: t'
    /\ exec (ask_respond r) t' res.
Proof.
  unfold ask_forward. intros H.
  exec_step H. exec_step H. eauto.
Qed.

Lemma upload_prefix_nil (file : FileStorage) : upload_prefix file [].
Proof. repeat split; try reflexivity. intros p c []. Qed.

Lemma exec_ask_upload (q : option string) (file : FileStorage)
  (fname : string) (t : list event) (res : outcome reply) :
  exec (ask_upload secure_filename guess_type b64encode cfg q file fname) t res ->
  exists pre t',
    t = pre ++ t' /\ upload_prefix file pre
    /\ (t' = [] \/ exists ups, exec (ask_forward cfg q ups) t' res).
Proof.
  unfold ask_upload. intros H.
  destruct (allowed_file_total fname) as (b & Hb). rewrite Hb in H.
  destruct b.
  - simpl negb in H. cbv iota in H. unfold call in H.
    simpl bind in H.
    exec_step H. destruct x as [[]|e].
    + simpl bind in H. exec_step H. destruct x as [raw|e].
      * eexists [_; _], _. split; [reflexivity|].
        split; [|right; eexists; exact H].
        repeat split; try reflexivity.
        intros p c [Hin|[]]. now inversion Hin.
      * exec_end H. eexists [_; _], []. split; [reflexivity|].
        split; [|now left].
        repeat split; try reflexivity.
        intros p c [Hin|[]]. now inversion Hin.
    + exec_end H. eexists [_], []. split; [reflexivity|].
      split; [|now left].
      repeat split; try reflexivity.
      intros p c [Hin|[]]. now inversion Hin.
  - exec_end H. exists [], []. split; [reflexivity|].
    split; [apply upload_prefix_nil | now left].
Qed.

(** Every run of [ask_bot] is a prefix that only touches the upload
    folder, followed by nothing or by the forwarding step. *)
Lemma exec_ask_bot (req : request) (t : list event) (res : outcome reply) :
  exec (ask req) t res ->
  exists pre t',
    t = pre ++ t'
    /\ uuids_drawn pre = [] /\ payloads_posted pre = []
    /\ post_results pre = [] /\ log_lines pre = []
    /\ (forall p c, In (p, c) (files_saved pre) ->
         exists file, multi_get "image" (files req) = Some file
                      /\ c = stream file)
    /\ (t' = []
        \/ exists ups,
             exec (ask_forward cfg (multi_get "question" (form req)) ups) t' res).
Proof.
  unfold ask_bot. intros H.
  assert (Hnil : forall t0,
             (t0 = [] \/ exists ups,
                 exec (ask_forward cfg (multi_get "question" (form req)) ups)
                   t0 res) ->
             exists pre t',
               t0 = pre ++ t'
               /\ uuids_drawn pre = [] /\ payloads_posted pre = []
               /\ post_results pre = [] /\ log_lines pre = []
               /\ (forall p c, In (p, c) (files_saved pre) ->
                    exists file, multi_get "image" (files req) = Some file
                                 /\ c = stream file)
               /\ (t' = [] \/ exists ups,
                      exec (ask_forward cfg (multi_get "question" (form req))
                              ups) t' res)).
  { intros t0 Ht0. exists [], t0. repeat split; auto. intros p c []. }
  destruct (negb (PyStr.truthy_opt (multi_get "question" (form req)))).
  - exec_end H. apply Hnil. now left.
  - destruct (multi_get "image" (files req)) as [file|] eqn:Hfile;
      [|apply Hnil; right; eauto].
    destruct (filename file) as [fname|]; [|apply Hnil; right; eauto].
    destruct (PyStr.truthy fname); [|apply Hnil; right; eauto].
    apply exec_ask_upload in H.
    destruct H as (pre & t' & -> & (Hu & Hp & Hr & Hl & Hf) & Hrest).
    exists pre, t'. repeat split; auto.
    intros p c Hin. exists file. split; [reflexivity|]. eapply Hf; eauto.
Qed.

Lemma uuids_drawn_app (a b : list event) :
  uuids_drawn (a ++ b) = uuids_drawn a ++ uuids_drawn b.
Proof. apply flat_map_app. Qed.

Lemma payloads_posted_app (a b : list event) :
  payloads_posted (a ++ b) = payloads_posted a ++ payloads_posted b.
Proof. apply flat_map_app. Qed.

Lemma post_results_app (a b : list event) :
  post_results (a ++ b) = post_results a ++ post_results b.
Proof. apply flat_map_app. Qed.

Lemma files_saved_app (a b : list event) :
  files_saved (a ++ b) = files_saved a ++ files_saved b.
Proof. apply flat_map_app. Qed.

Lemma log_lines_app (a b : list event) :
  log_lines (a ++ b) = log_lines a ++ log_lines b.
Proof. apply flat_map_app. Qed.

(** The backend's answer, once seen in a run, decides how it ends. *)
Lemma ask_bot_backend_answer (req : request) (t : list event)
  (res : outcome reply) (r : pyresult response) :
  exec (ask req) t res ->
  In r (post_results t) ->
  exists t', exec (ask_respond r) t' res /\ log_lines t = log_lines t'.
Proof.
  intros H Hin.
  destruct (exec_ask_bot _ _ _ H)
    as (pre & t' & -> & _ & _ & Hr & Hl & _ & [-> | (ups & Hfw)]).
  - rewrite post_results_app, Hr in Hin. destruct Hin.
  - destruct (exec_ask_forward _ _ _ _ Hfw) as (sid & r0 & t'' & -> & Hresp).
    destruct (exec_ask_respond_quiet _ _ _ Hresp) as (_ & _ & Hq & _).
    rewrite post_results_app, Hr in Hin. simpl in Hin.
    fold (post_results t'') in Hin. rewrite Hq in Hin.
    destruct Hin as [<- | []].
    exists t''. split; [assumption|].
    rewrite log_lines_app, Hl. reflexivity.
Qed.

(** A run draws at most one id, and the ids it posts are exactly the
    ids it drew. *)
Lemma ask_bot_session_ids (req : request) (t : list event)
  (res : outcome reply) :
  exec (ask req) t res ->
  map payload_session_id (payloads_posted t) = map JStr (uuids_drawn t).
Proof.
  intros H.
  destruct (exec_ask_bot _ _ _ H)
    as (pre & t' & -> & Hu & Hp & _ & _ & _ & [-> | (ups & Hfw)]).
  - rewrite payloads_posted_app, uuids_drawn_app, Hu, Hp. reflexivity.
  - destruct (exec_ask_forward _ _ _ _ Hfw) as (sid & r0 & t'' & -> & Hresp).
    destruct (exec_ask_respond_quiet _ _ _ Hresp) as (Hqu & Hqp & _ & _).
    rewrite payloads_posted_app, uuids_drawn_app, Hu, Hp. simpl.
    fold (payloads_posted t''). fold (uuids_drawn t'').
    rewrite Hqu, Hqp. reflexivity.
Qed.

(** Nothing but the bytes of an uploaded attachment reaches the disk. *)
Lemma ask_bot_files_saved (req : request) (t : list event)
  (res : outcome reply) :
  exec (ask req) t res ->
  forall p c, In (p, c) (files_saved t) ->
    exists file, multi_get "image" (files req) = Some file /\ c = stream file.
Proof.
  intros H p c Hin.
  destruct (exec_ask_bot _ _ _ H)
    as (pre & t' & -> & _ & _ & _ & _ & Hf & [-> | (ups & Hfw)]).
  - rewrite app_nil_r in Hin. eauto.
  - destruct (exec_ask_forward _ _ _ _ Hfw) as (sid & r0 & t'' & -> & Hresp).
    destruct (exec_ask_respond_quiet _ _ _ Hresp) as (_ & _ & _ & Hqf).
    rewrite files_saved_app in Hin. simpl in Hin.
    fold (files_saved t'') in Hin. rewrite Hqf, app_nil_r in Hin. eauto.
Qed.

(** What [ask_respond] does with a decoded JSON object. *)
Lemma ask_respond_object (resp : response) (d : list (string * json)) :
  resp_json resp = Ok (JObj d) ->
  ask_respond (Ok resp)
  = Ret (mk_reply
           (jsonify [("success", JBool true);
                     ("answer", answer_if_truthy d);
                     ("raw", JObj d)])
           (if (status_code resp <? 400)%Z then status_code resp else 200%Z)).
Proof.
  intros Hj. unfold ask_respond. rewrite Hj. simpl.
  unfold answer_if_truthy, PyJson.dict_get, PyJson.por.
  destruct (PyJson.lookup "text" d) as [v|]; simpl.
  - destruct (PyJson.truthy v) eqn:Hv; simpl; [reflexivity|].
    destruct (PyJson.lookup "answer" d) as [w|]; simpl; reflexivity.
  - destruct (PyJson.lookup "answer" d) as [w|]; simpl; reflexivity.
Qed.

(** For a JSON object the outward status mirrors the backend's below
    400 and is 200 from 400 on, around the success envelope. *)
Lemma ask_bot_status_object_body (req : request) (t : list event)
  (res : outcome reply) (resp : response) (d : list (string * json)) :
  exec (ask req) t res ->
  In (Ok resp) (post_results t) ->
  resp_json resp = Ok (JObj d) ->
  res = Done (mk_reply
                (jsonify [("success", JBool true);
                          ("answer", answer_if_truthy d);
                          ("raw", JObj d)])
                (if (status_code resp <? 400)%Z
                 then status_code resp else 200%Z)).
Proof.
  intros H Hin Hj.
  destruct (ask_bot_backend_answer _ _ _ _ H Hin) as (t' & Hr & _).
  rewrite (ask_respond_object _ _ Hj) in Hr. now destruct Hr as (_ & ->).
Qed.

(** C1 (as amended).  When the backend's body decodes to a JSON object,
    the [answer] of the reply is the value of [text] if that entry is
    present and true in Python's sense, otherwise the value of [answer]
    if present and true, otherwise the whole decoded body; in
    particular a body [{text: X}] with a non-empty string [X] yields
    [answer == X]. *)
Theorem ask_answer_truthy_fallback (req : request) (t : list event)
  (res : outcome reply) (resp : response) (d : list (string * json)) :
  exec (ask req) t res ->
  In (Ok resp) (post_results t) ->
  resp_json resp = Ok (JObj d) ->
  exists rep,
    res = Done rep
    /\ reply_field "answer" rep = Some (answer_if_truthy d)
    /\ reply_field "raw" rep = Some (JObj d)
    /\ forall X, d = [("text", JStr X)] -> X <> "" ->
         reply_field "answer" rep = Some (JStr X).
Proof.
  intros H Hin Hj.
  rewrite (ask_bot_status_object_body _ _ _ _ _ H Hin Hj).
  eexists. split; [reflexivity|]. repeat split.
  intros X -> HX. unfold reply_field; simpl.
  destruct X; [now elim HX | reflexivity].
Qed.

(** C2 (as amended).  When [resp.json()] raises a [ValueError] (the
    decoder rejects the backend's body), the reply is a 500 whose
    [raw] entry is the backend text in full; only the line written to
    the server log is cut to its first 500 characters.  Nothing is
    said here of a body on which decoding fails with another
    exception. *)
Theorem ask_non_json_raw_in_full (req : request) (t : list event)
  (res : outcome reply) (resp : response) (e : pyexn) :
  exec (ask req) t res ->
  In (Ok resp) (post_results t) ->
  resp_json resp = Exn e -> is_value_error e = true ->
  res = Done (mk_reply
                (jsonify [("error", JStr "invalid response from flowise");
                          ("raw", JStr (text resp))]) 500)
  /\ log_lines t
     = [("Non-JSON response from Flowise: "
           ++ PyStr.slice_to 500 (text resp))%string].
Proof.
  intros H Hin Hj He.
  destruct (ask_bot_backend_answer _ _ _ _ H Hin) as (t' & Hr & ->).
  unfold ask_respond in Hr. rewrite Hj, He in Hr.
  exec_step Hr. exec_end Hr. split; reflexivity.
Qed.

(** C4.  A request whose [question] form field is missing or empty is
    answered 400 with an [error] entry, and the handler has not made a
    single interaction by then: no outbound call is ever attempted. *)
Theorem ask_question_required (req : request) :
  multi_get "question" (form req) = None
  \/ multi_get "question" (form req) = Some "" ->
  ask req
  = Ret (mk_reply (jsonify [("error", JStr "question field is required")]) 400)
  /\ never (@is_post) (ask req)
  /\ forall t res, exec (ask req) t res -> t = [].
Proof.
  intros Hq.
  assert (E : ask req
              = Ret (mk_reply
                       (jsonify [("error", JStr "question field is required")])
                       400)).
  { unfold ask_bot. destruct Hq as [-> | ->]; reflexivity. }
  rewrite E. repeat split. intros t res (-> & _). reflexivity.
Qed.

(** C5.  With a non-empty question and an image part whose file name
    is not empty, a file name without extension, or with an extension
    that matches no entry of the allow-set when case is ignored, is
    answered 400 with an [error] entry, without any interaction: the
    backend is not contacted. *)
Theorem ask_disallowed_extension (req : request) (q : string)
  (file : FileStorage) (fname : string) :
  multi_get "question" (form req) = Some q -> q <> "" ->
  multi_get "image" (files req) = Some file ->
  filename file = Some fname -> fname <> "" ->
  extension_rejected fname ->
  ask req = Ret (mk_reply (jsonify [("error", JStr "file type not allowed")]) 400)
  /\ never (@is_post) (ask req)
  /\ forall t res, exec (ask req) t res -> t = [].
Proof.
  intros Hq Hne Hf Hn Hfn Hrej.
  assert (E : ask req
              = Ret (mk_reply
                       (jsonify [("error", JStr "file type not allowed")]) 400)).
  { unfold ask_bot, ask_upload. rewrite Hq, Hf, Hn.
    rewrite (allowed_file_rejected _ Hrej).
    destruct q; [now elim Hne|]. destruct fname; [now elim Hfn|].
    reflexivity. }
  rewrite E. repeat split. intros t res (-> & _). reflexivity.
Qed.

(** C6.  When the outbound call raises a [requests.RequestException],
    the reply is a 502 whose body has an [error] and a [detail] entry
    and no [raw] entry. *)
Theorem ask_backend_unreachable (req : request) (t : list event)
  (res : outcome reply) (e : pyexn) :
  exec (ask req) t res ->
  In (Exn e) (post_results t) ->
  is_request_exception e = true ->
  exists rep,
    res = Done rep
    /\ status rep = 502%Z
    /\ reply_field "error" rep = Some (JStr "failed to reach Flowise")
    /\ reply_field "detail" rep = Some (JStr (exn_str e))
    /\ reply_field "raw" rep = None.
Proof.
  intros H Hin He.
  destruct (ask_bot_backend_answer _ _ _ _ H Hin) as (t' & Hr & _).
  unfold ask_respond in Hr. rewrite He in Hr.
  exec_step Hr. exec_end Hr.
  eexists. split; [reflexivity|]. repeat split.
Qed.

(** C9.  With a non-empty question and an image part whose file name
    is empty, the handler is the very program it is for the same
    request without any file part: no extension is checked, nothing is
    saved or encoded, and the payload posted carries [uploads = []]. *)
Theorem ask_empty_filename_ignored (req : request) (q : string)
  (file : FileStorage) :
  multi_get "question" (form req) = Some q -> q <> "" ->
  multi_get "image" (files req) = Some file ->
  filename file = Some "" ->
  ask req = ask (mk_request (form req) [] (get_json req))
  /\ ask req = ask_forward cfg (Some q) []
  /\ forall t res, exec (ask req) t res ->
       files_saved t = []
       /\ map payload_uploads (payloads_posted t) = [JArr []].
Proof.
  intros Hq Hne Hf Hn.
  assert (E : ask req = ask_forward cfg (Some q) []).
  { unfold ask_bot. rewrite Hq, Hf, Hn.
    destruct q; [now elim Hne | reflexivity]. }
  split; [|split; [exact E|]].
  - rewrite E. unfold ask_bot. simpl form. simpl files. rewrite Hq.
    destruct q; [now elim Hne | reflexivity].
  - intros t res H. rewrite E in H.
    destruct (exec_ask_forward _ _ _ _ H) as (sid & r & t' & -> & Hr).
    destruct (exec_ask_respond_quiet _ _ _ Hr) as (_ & Hp & _ & Hs).
    simpl. fold (files_saved t'). fold (payloads_posted t').
    rewrite Hp, Hs. split; reflexivity.
Qed.

End AskRuns.

(* ================================================================= *)
(** ** Session ids over a sequence of [/ask] calls *)

Lemma JStr_injective : Finite.Injective JStr.
Proof. intros a b E. now inversion E. Qed.

Lemma serve_ask_session_ids sf gt b64 cfg reqs h rs :
  serve_ask sf gt b64 cfg reqs h rs ->
  map payload_session_id (payloads_posted h) = map JStr (uuids_drawn h).
Proof.
  induction 1 as [|req t res reqs h rs Hrun _ IH]; [reflexivity|].
  rewrite payloads_posted_app, uuids_drawn_app, !map_app, IH.
  f_equal. eapply ask_bot_session_ids; eassumption.
Qed.

Lemma serve_ask_files_saved sf gt b64 cfg reqs h rs :
  serve_ask sf gt b64 cfg reqs h rs ->
  forall p c, In (p, c) (files_saved h) ->
    exists req file,
      In req reqs /\ multi_get "image" (files req) = Some file
      /\ c = stream file.
Proof.
  induction 1 as [|req t res reqs h rs Hrun _ IH]; intros p c Hin.
  - destruct Hin.
  - rewrite files_saved_app in Hin. apply in_app_or in Hin.
    destruct Hin as [Hin|Hin].
    + destruct (ask_bot_files_saved _ _ _ _ _ _ _ Hrun _ _ Hin)
        as (file & Hf & Hc).
      exists req, file. repeat split; auto. now left.
    + destruct (IH _ _ Hin) as (req' & file & Hr & Hf & Hc).
      exists req', file. repeat split; auto. now right.
Qed.

(* ================================================================= *)
(** ** The [/send_itinerary] handler *)

Section MailRuns.

Variable as_string : mime_text -> pyresult string.
Variable mimetext_raises : string -> option pyexn.
Variable cfg : config.

Local Notation "'send'" := (send_itinerary as_string mimetext_raises cfg).

Lemma truthy_email_nonempty (d : list (string * json)) :
  PyJson.truthy (PyJson.dict_get d "email" JNull) = true ->
  PyJson.truthy (JObj d) = true.
Proof. destruct d; [discriminate | reflexivity]. Qed.

Lemma credentials_unset_test :
  GMAIL_USER cfg = None \/ GMAIL_PASS cfg = None ->
  negb (PyStr.truthy_opt (GMAIL_USER cfg))
  || negb (PyStr.truthy_opt (GMAIL_PASS cfg)) = true.
Proof.
  intros [-> | ->]; simpl; [reflexivity | apply orb_true_r].
Qed.

(** A JSON object without a true [email] entry: 400, whatever the
    credentials are. *)
Lemma send_itinerary_email_required (req : request)
  (d : list (string * json)) :
  get_json req = Ok (Some (JObj d)) ->
  PyJson.truthy (PyJson.dict_get d "email" JNull) = false ->
  send req = Ret (mk_reply (jsonify [("error", JStr "email is required")]) 400).
Proof.
  intros Hj He. unfold send_itinerary. rewrite Hj.
  destruct d as [|kv d']; [reflexivity|].
  simpl PyJson.truthy. cbv iota. cbn [py_get bind]. now rewrite He.
Qed.

(** C7.  For a body that carries a recipient [email], if [GMAIL_USER]
    or [GMAIL_PASS] is unset the handler logs the fact and answers 500
    with [{error: email credentials not configured}]; no SMTP effect
    occurs anywhere in that program.  The recipient check comes first:
    under the same configuration a body without recipient is answered
    400. *)
Theorem send_itinerary_credentials_unset (req : request)
  (d : list (string * json)) :
  get_json req = Ok (Some (JObj d)) ->
  PyJson.truthy (PyJson.dict_get d "email" JNull) = true ->
  GMAIL_USER cfg = None \/ GMAIL_PASS cfg = None ->
  send req
  = Vis (Logging LogError
           "Email credentials not configured on server environment")
        (fun _ => Ret (mk_reply
                         (jsonify [("error",
                                    JStr "email credentials not configured")])
                         500))
  /\ never (@is_smtp) (send req)
  /\ forall req' d',
       get_json req' = Ok (Some (JObj d')) ->
       PyJson.truthy (PyJson.dict_get d' "email" JNull) = false ->
       send req'
       = Ret (mk_reply (jsonify [("error", JStr "email is required")]) 400).
Proof.
  intros Hj He Hc.
  assert (E : send req
              = Vis (Logging LogError
                       "Email credentials not configured on server environment")
                  (fun _ => Ret (mk_reply
                                   (jsonify
                                      [("error",
                                        JStr "email credentials not configured")])
                                   500))).
  { unfold send_itinerary. rewrite Hj, (truthy_email_nonempty _ He).
    cbn [py_get bind]. rewrite He, (credentials_unset_test Hc).
    reflexivity. }
  split; [exact E|]. split.
  - rewrite E. simpl. split; [reflexivity | intros _; exact I].
  - intros req' d'. apply send_itinerary_email_required.
Qed.

(** X18.  When [get_json] gives [None] (the body is absent, or the
    decoder rejected it with a [ValueError] that [silent=True]
    swallowed), the handler behaves as on the empty object and answers
    400 with [{error: email is required}]. *)
Theorem send_itinerary_no_json_body (req : request) :
  get_json req = Ok None ->
  send req = Ret (mk_reply (jsonify [("error", JStr "email is required")]) 400)
  /\ send req = send (mk_request (form req) (files req) (Ok (Some (JObj [])))).
Proof.
  intros Hj. unfold send_itinerary. rewrite Hj. split; reflexivity.
Qed.

End MailRuns.

(* ================================================================= *)
(** ** Concrete runs *)

Local Notation "'sample_ask'" :=
  (ask_bot Sample.secure_filename Sample.guess_type Sample.b64encode
     Sample.cfg).
Local Notation "'sample_send'" :=
  (send_itinerary Sample.as_string Sample.mimetext_raises Sample.cfg).

(** Replay a handler on an explicit list of interactions. *)
Ltac run_exec :=
  repeat (simpl;
          match goal with
          | |- exists _, _ => eexists
          | |- _ /\ _ => split
          | |- _ = _ => reflexivity
          end).

(** The envelope around [answer] and the decoded body. *)
Lemma run_paris :
  exec (sample_ask Sample.req) (Sample.run "sid-1" (Ok Sample.resp_paris))
    (Done (mk_reply
             (jsonify [("success", JBool true);
                       ("answer", JStr "Paris");
                       ("raw", JObj [("text", JStr "Paris")])]) 200)).
Proof. run_exec. Qed.

(** Counterexample to C1 as stated: the backend body [{text: X}] with
    [X] the empty string.  The entry is present, so the stated rule
    gives the answer [X]; the handler's [or] skips the empty string,
    finds no [answer] entry and replies with the whole body. *)
Lemma ask_answer_empty_text_falls_through :
  let rep :=
    mk_reply
      (jsonify [("success", JBool true);
                ("answer", JObj [("text", JStr "")]);
                ("raw", JObj [("text", JStr "")])]) 200 in
  exec (sample_ask Sample.req)
    (Sample.run "sid-1" (Ok Sample.resp_empty_text)) (Done rep)
  /\ spec_answer_if_present [("text", JStr "")] = JStr ""
  /\ reply_field "answer" rep
     <> Some (spec_answer_if_present [("text", JStr "")]).
Proof.
  split; [|split].
  - run_exec.
  - reflexivity.
  - discriminate.
Qed.

(** Counterexample to C2 as stated: a backend text of 501 characters
    that is not JSON.  The [raw] entry sent to the client holds all 501
    characters; the cut to 500 is applied to the log line only. *)
Lemma ask_non_json_raw_not_truncated :
  let rep :=
    mk_reply
      (jsonify [("error", JStr "invalid response from flowise");
                ("raw", JStr Sample.long_text)]) 500 in
  let line :=
    ("Non-JSON response from Flowise: "
       ++ PyStr.slice_to 500 Sample.long_text)%string in
  exec (sample_ask Sample.req)
    (Sample.run "sid-1" (Ok Sample.resp_not_json)
       ++ [Ev (Logging LogError line) tt])
    (Done rep)
  /\ reply_field "raw" rep = Some (JStr Sample.long_text)
  /\ String.length Sample.long_text = 501
  /\ String.length (PyStr.slice_to 500 Sample.long_text) = 500
  /\ reply_field "raw" rep
     <> Some (JStr (PyStr.slice_to 500 Sample.long_text)).
Proof.
  split; [|split; [|split; [|split]]].
  - run_exec.
  - reflexivity.
  - vm_compute. reflexivity.
  - vm_compute. reflexivity.
  - intros E.
    apply (f_equal (fun o => match o with
                             | Some (JStr s) => String.length s
                             | _ => 0
                             end)) in E.
    vm_compute in E. discriminate.
Qed.

(** C3 at a body that is valid JSON but not an object: the backend
    answers [[]] with status 200.  [flowise_data.get] raises
    [AttributeError], nothing catches it, and the handler ends in a
    fault instead of the success envelope with status 200. *)
Theorem ask_json_array_body_faults :
  exec (sample_ask Sample.req) (Sample.run "sid-1" (Ok Sample.resp_array))
    (Fault (mk_exn AttributeError "object has no attribute 'get'"))
  /\ forall t res,
       exec (sample_ask Sample.req) t res ->
       In (Ok Sample.resp_array) (post_results t) ->
       forall rep, res <> Done rep.
Proof.
  split.
  - run_exec.
  - intros t res H Hin rep.
    destruct (ask_bot_backend_answer _ _ _ _ _ _ _ _ H Hin) as (t' & Hr & _).
    simpl in Hr. destruct Hr as (_ & ->). discriminate.
Qed.

(** [{text: Paris}] is answered with [answer == Paris]. *)
Lemma ask_answer_truthy_fallback_witness :
  exists rep,
    Done (mk_reply
            (jsonify [("success", JBool true);
                      ("answer", JStr "Paris");
                      ("raw", JObj [("text", JStr "Paris")])]) 200)
    = Done rep
    /\ reply_field "answer" rep = Some (JStr "Paris").
Proof.
  destruct (ask_answer_truthy_fallback
              Sample.secure_filename Sample.guess_type Sample.b64encode
              Sample.cfg Sample.req
              (Sample.run "sid-1" (Ok Sample.resp_paris))
              (Done (mk_reply
                       (jsonify [("success", JBool true);
                                 ("answer", JStr "Paris");
                                 ("raw", JObj [("text", JStr "Paris")])]) 200))
              Sample.resp_paris [("text", JStr "Paris")])
    as (rep & E & _ & _ & HX).
  - run_exec.
  - simpl. left. reflexivity.
  - reflexivity.
  - exists rep. split; [exact E|]. apply HX; [reflexivity | discriminate].
Defined.

(** 501 characters of non-JSON come back in full, with a 500. *)
Lemma ask_non_json_raw_in_full_witness :
  Done (mk_reply
          (jsonify [("error", JStr "invalid response from flowise");
                    ("raw", JStr Sample.long_text)]) 500)
  = Done (mk_reply
            (jsonify [("error", JStr "invalid response from flowise");
                      ("raw", JStr (text Sample.resp_not_json))]) 500)
  /\ log_lines
       (Sample.run "sid-1" (Ok Sample.resp_not_json)
          ++ [Ev (Logging LogError
                    ("Non-JSON response from Flowise: "
                       ++ PyStr.slice_to 500 Sample.long_text)%string) tt])
     = [("Non-JSON response from Flowise: "
           ++ PyStr.slice_to 500 (text Sample.resp_not_json))%string].
Proof.
  apply (ask_non_json_raw_in_full
           Sample.secure_filename Sample.guess_type Sample.b64encode
           Sample.cfg Sample.req _ _ Sample.resp_not_json
           Sample.json_decode_error).
  - run_exec.
  - simpl. left. reflexivity.
  - reflexivity.
  - reflexivity.
Defined.

(** No form field at all: 400 at once. *)
Lemma ask_question_required_witness :
  sample_ask (mk_request [] [] (Ok None))
  = Ret (mk_reply (jsonify [("error", JStr "question field is required")]) 400).
Proof.
  apply (ask_question_required
           Sample.secure_filename Sample.guess_type Sample.b64encode
           Sample.cfg (mk_request [] [] (Ok None))).
  left. reflexivity.
Defined.

(** [tower.exe] is turned down. *)
Lemma ask_disallowed_extension_witness :
  sample_ask Sample.req_exe
  = Ret (mk_reply (jsonify [("error", JStr "file type not allowed")]) 400).
Proof.
  apply (ask_disallowed_extension
           Sample.secure_filename Sample.guess_type Sample.b64encode
           Sample.cfg Sample.req_exe Sample.question Sample.file_exe
           "tower.exe").
  - reflexivity.
  - discriminate.
  - reflexivity.
  - reflexivity.
  - discriminate.
  - right. exists "exe". split.
    + exists "tower". split; reflexivity.
    + intros a Ha. unfold same_ignoring_case.
      simpl in Ha.
      repeat (destruct Ha as [<- | Ha]; [discriminate|]). destruct Ha.
Defined.

(** Connection refused: 502 with the exception text as detail. *)
Lemma ask_backend_unreachable_witness :
  exists rep,
    Done (mk_reply
            (jsonify [("error", JStr "failed to reach Flowise");
                      ("detail", JStr "Connection refused")]) 502)
    = Done rep
    /\ status rep = 502%Z
    /\ reply_field "error" rep = Some (JStr "failed to reach Flowise")
    /\ reply_field "detail" rep
       = Some (JStr (exn_str Sample.connection_refused))
    /\ reply_field "raw" rep = None.
Proof.
  apply (ask_backend_unreachable
           Sample.secure_filename Sample.guess_type Sample.b64encode
           Sample.cfg Sample.req
           (Sample.run "sid-1" (Exn Sample.connection_refused)
              ++ [Ev (Logging LogException
                        "Failed to call Flowise prediction endpoint") tt])).
  - run_exec.
  - simpl. left. reflexivity.
  - reflexivity.
Defined.

(** An unnamed file part changes nothing. *)
Lemma ask_empty_filename_ignored_witness :
  sample_ask Sample.req_unnamed = sample_ask Sample.req.
Proof.
  apply (ask_empty_filename_ignored
           Sample.secure_filename Sample.guess_type Sample.b64encode
           Sample.cfg Sample.req_unnamed Sample.question Sample.file_unnamed).
  - reflexivity.
  - discriminate.
  - reflexivity.
  - reflexivity.
Defined.

(** A recipient, and no mail account configured. *)
Lemma send_itinerary_credentials_unset_witness :
  sample_send Sample.req_mail
  = Vis (Logging LogError
           "Email credentials not configured on server environment")
        (fun _ => Ret (mk_reply
                         (jsonify [("error",
                                    JStr "email credentials not configured")])
                         500)).
Proof.
  apply (send_itinerary_credentials_unset
           Sample.as_string Sample.mimetext_raises Sample.cfg Sample.req_mail Sample.mail_body).
  - reflexivity.
  - reflexivity.
  - left. reflexivity.
Defined.

(** No body at all. *)
Lemma send_itinerary_no_json_body_witness :
  sample_send Sample.req_mail_empty
  = Ret (mk_reply (jsonify [("error", JStr "email is required")]) 400).
Proof.
  apply (send_itinerary_no_json_body
           Sample.as_string Sample.mimetext_raises Sample.cfg Sample.req_mail_empty).
  reflexivity.
Defined.

(** [/health] *)
Example health_ok :
  health = Ret (mk_reply (jsonify [("status", JStr "ok")]) 200).
Proof. reflexivity. Qed.

(* ================================================================= *)
(** ** [allowed_file]: which names pass *)

Lemma rsplit_last_some (c : ascii) (s h t : string) :
  PyStr.rsplit_last c s = Some (h, t) ->
  s = (h ++ String c t)%string /\ PyStr.contains c t = false.
Proof.
  revert h t. induction s as [|x s IH]; simpl; [discriminate|].
  intros h t.
  destruct (PyStr.rsplit_last c s) as [[h' t']|] eqn:R.
  - intros E. inversion E; subst. destruct (IH _ _ eq_refl) as (-> & Ht).
    split; [reflexivity | assumption].
  - destruct (Ascii.eqb x c) eqn:Ex; [|discriminate].
    intros E. inversion E; subst. apply Ascii.eqb_eq in Ex. subst.
    split; [reflexivity|].
    destruct (PyStr.contains c t) eqn:Ct; [|reflexivity].
    destruct (contains_split _ _ Ct) as (a & b & ->).
    clear -R. exfalso. induction a as [|y a IHa]; simpl in R.
    + destruct (PyStr.rsplit_last c b) as [[? ?]|]; [discriminate|].
      now rewrite Ascii.eqb_refl in R.
    + destruct (PyStr.rsplit_last c (a ++ String c b)) as [[? ?]|];
        [discriminate|]. now apply IHa.
Qed.

Lemma str_append_assoc (a b c : string) :
  ((a ++ b) ++ c)%string = (a ++ (b ++ c))%string.
Proof. induction a as [|x a IH]; simpl; [reflexivity | now rewrite IH]. Qed.

Lemma mem_in (x : string) (S : list string) :
  PyStr.mem x S = true -> In x S.
Proof.
  unfold PyStr.mem. intros H. apply existsb_exists in H.
  destruct H as (a & Ha & E). apply String.eqb_eq in E. now subst.
Qed.

Lemma allowed_file_accepts (fname : string) :
  extension_allowed fname -> allowed_file fname = Ret true.
Proof.
  intros (ext & a & Hext & Ha & Hc).
  rewrite (allowed_file_extension _ _ Hext). f_equal.
  unfold same_ignoring_case in Hc. rewrite Hc, (lower_allowed _ Ha).
  now apply mem_true.
Qed.

Lemma allowed_file_true_inv (fname : string) :
  allowed_file fname = Ret true -> extension_allowed fname.
Proof.
  unfold allowed_file.
  destruct (PyStr.contains "." fname); [|discriminate].
  unfold PyStr.rsplit1.
  destruct (PyStr.rsplit_last "." fname) as [[h t]|] eqn:R;
    cbn [nth_error]; [|discriminate].
  intros E.
  assert (Hm : PyStr.mem (PyStr.lower t) ALLOWED_EXT = true) by congruence.
  apply mem_in in Hm.
  destruct (rsplit_last_some _ _ _ _ R) as (-> & Ht).
  exists t, (PyStr.lower t). repeat split; try assumption.
  - exists h. split; [reflexivity | assumption].
  - unfold same_ignoring_case. now rewrite (lower_allowed _ Hm).
Qed.

(** X1.  [allowed_file] never raises, and it answers [True] exactly
    for the names whose text after the last dot matches an entry of
    the allow-set when case is ignored; every other name, a name
    without dot included, gets [False]. *)
Theorem allowed_file_decides (fname : string) :
  (allowed_file fname = Ret true <-> extension_allowed fname)
  /\ (allowed_file fname = Ret false <-> ~ extension_allowed fname).
Proof.
  split; [split; [apply allowed_file_true_inv | apply allowed_file_accepts]|].
  destruct (allowed_file_total fname) as ([|] & Hb); rewrite Hb; split.
  - discriminate.
  - intros Hn. elim Hn. now apply allowed_file_true_inv.
  - intros _ Ha. apply allowed_file_accepts in Ha. congruence.
  - reflexivity.
Qed.

(** X2.  Only the text after the last dot counts, and its case does
    not: two names whose extensions agree up to case get the same
    answer, whatever stands before the last dot. *)
Theorem allowed_file_last_extension_only (stem stem' ext ext' : string) :
  PyStr.contains "." ext = false ->
  PyStr.contains "." ext' = false ->
  same_ignoring_case ext ext' ->
  allowed_file (stem ++ "." ++ ext) = allowed_file (stem' ++ "." ++ ext').
Proof.
  intros He He' Hc.
  rewrite (allowed_file_extension (stem ++ "." ++ ext) ext),
    (allowed_file_extension (stem' ++ "." ++ ext') ext').
  - unfold same_ignoring_case in Hc. now rewrite Hc.
  - exists stem'. split; [reflexivity | assumption].
  - exists stem. split; [reflexivity | assumption].
Qed.

Lemma allowed_file_last_extension_only_witness :
  allowed_file "archive.tar.PnG" = allowed_file ".png".
Proof.
  apply (allowed_file_last_extension_only "archive.tar" "" "PnG" "png");
    reflexivity.
Defined.

(** X3.  A name that ends in a dot, or whose last extension is not in
    the allow-set, is refused even when an allowed extension occurs
    earlier in it; a name made of an allowed extension behind any
    stem, dots included, passes. *)
Theorem allowed_file_stem_irrelevant (stem a : string) :
  In a ALLOWED_EXT ->
  allowed_file (stem ++ "." ++ a) = Ret true
  /\ allowed_file (stem ++ "." ++ a ++ ".") = Ret false
  /\ allowed_file (stem ++ "." ++ a ++ ".exe") = Ret false.
Proof.
  intros Ha.
  assert (Hd : PyStr.contains "." a = false).
  { simpl in Ha.
    repeat (destruct Ha as [<- | Ha]; [reflexivity|]). destruct Ha. }
  split; [|split].
  - apply allowed_file_accepts. exists a, a. repeat split; auto.
    exists stem. split; [reflexivity | assumption].
  - rewrite (allowed_file_extension _ "").
    + reflexivity.
    + exists (stem ++ "." ++ a)%string. split; [|reflexivity].
      now rewrite str_append_assoc.
  - rewrite (allowed_file_extension _ "exe").
    + reflexivity.
    + exists (stem ++ "." ++ a)%string. split; [|reflexivity].
      now rewrite str_append_assoc.
Qed.

Lemma allowed_file_stem_irrelevant_witness :
  allowed_file "my.holiday.jpeg" = Ret true
  /\ allowed_file "my.holiday.jpeg." = Ret false
  /\ allowed_file "my.holiday.jpeg.exe" = Ret false.
Proof.
  apply (allowed_file_stem_irrelevant "my.holiday" "jpeg").
  simpl. right. right. left. reflexivity.
Defined.

(* ================================================================= *)
(** ** [ask_bot]: every run, case by case *)

Lemma exec_ask_respond_cases (r : pyresult response) (t : list event)
  (res : outcome reply) :
  exec (ask_respond r) t res ->
  match r with
  | Exn e =>
      if is_request_exception e then
        t = [Ev (Logging LogException
                   "Failed to call Flowise prediction endpoint") tt]
        /\ res = Done (mk_reply
                         (jsonify [("error", JStr "failed to reach Flowise");
                                   ("detail", JStr (exn_str e))]) 502)
      else t = [] /\ res = Fault e
  | Ok resp =>
      match resp_json resp with
      | Exn e =>
          if is_value_error e then
            t = [Ev (Logging LogError
                       ("Non-JSON response from Flowise: "
                          ++ PyStr.slice_to 500 (text resp))%string) tt]
            /\ res = Done (mk_reply
                             (jsonify
                                [("error",
                                  JStr "invalid response from flowise");
                                 ("raw", JStr (text resp))]) 500)
          else t = [] /\ res = Fault e
      | Ok (JObj d) =>
          t = []
          /\ res = Done (mk_reply
                           (jsonify [("success", JBool true);
                                     ("answer", answer_if_truthy d);
                                     ("raw", JObj d)])
                           (if (status_code resp <? 400)%Z
                            then status_code resp else 200%Z))
      | Ok _ => t = [] /\ exists msg, res = Fault (mk_exn AttributeError msg)
      end
  end.
Proof.
  intros H. destruct r as [resp|e].
  - destruct (resp_json resp) as [data|e] eqn:Hj.
    + destruct data;
        try (unfold ask_respond in H; rewrite Hj in H; simpl in H;
             destruct H as (-> & ->); split; [reflexivity | eauto]).
      rewrite (ask_respond_object _ _ Hj) in H. exact H.
    + unfold ask_respond in H. rewrite Hj in H.
      destruct (is_value_error e).
      * exec_step H. exec_end H. destruct x. split; reflexivity.
      * exact H.
  - unfold ask_respond in H. destruct (is_request_exception e).
    + exec_step H. exec_end H. destruct x. split; reflexivity.
    + exact H.
Qed.

Section AskCases.

Variable secure_filename : string -> string.
Variable guess_type : string -> option string.
Variable b64encode : list Byte.byte -> string.
Variable cfg : config.

Local Notation "'ask'" := (ask_bot secure_filename guess_type b64encode cfg).
Local Notation "'entry'" := (upload_entry secure_filename guess_type b64encode).
Local Notation "'path_of'" := (upload_path secure_filename).

(** The four ways a run of [ask_bot] can go before the session id is
    drawn. *)
Lemma exec_ask_bot_cases (req : request) (t : list event)
  (res : outcome reply) :
  exec (ask req) t res ->
  (t = [] /\ exists msg,
      res = Done (mk_reply (jsonify [("error", JStr msg)]) 400))
  \/ (exists file fname e,
        multi_get "image" (files req) = Some file
        /\ filename file = Some fname
        /\ res = Fault e
        /\ (t = [Ev (FileSave (path_of fname) (stream file)) (Exn e)]
            \/ t = [Ev (FileSave (path_of fname) (stream file)) (Ok tt);
                    Ev (FileRead (path_of fname)) (Exn e)]))
  \/ (exists q, multi_get "question" (form req) = Some q /\ q <> ""
        /\ exec (ask_forward cfg (Some q) []) t res)
  \/ (exists q file fname raw t',
        multi_get "question" (form req) = Some q /\ q <> ""
        /\ multi_get "image" (files req) = Some file
        /\ filename file = Some fname /\ fname <> ""
        /\ allowed_file fname = Ret true
        /\ t = Ev (FileSave (path_of fname) (stream file)) (Ok tt)
                 :: Ev (FileRead (path_of fname)) (Ok raw) :: t'
        /\ exec (ask_forward cfg (Some q) [entry file fname raw]) t' res).
Proof.
  unfold ask_bot. intros H.
  destruct (multi_get "question" (form req)) as [q|] eqn:Hq;
    [|left; exec_end H; split; [reflexivity | eauto]].
  destruct q as [|c q'];
    [left; exec_end H; split; [reflexivity | eauto]|].
  simpl PyStr.truthy_opt in H. cbv iota in H. simpl negb in H. cbv iota in H.
  assert (Hne : String c q' <> "") by discriminate.
  destruct (multi_get "image" (files req)) as [file|] eqn:Hfile;
    [|right; right; left; eauto].
  destruct (filename file) as [fname|] eqn:Hn;
    [|right; right; left; eauto].
  destruct fname as [|c' f']; [right; right; left; eauto|].
  simpl PyStr.truthy in H. cbv iota in H.
  assert (Hfn : String c' f' <> "") by discriminate.
  unfold ask_upload in H.
  destruct (allowed_file_total (String c' f')) as (b & Hb). rewrite Hb in H.
  destruct b.
  - simpl negb in H. cbv iota in H. unfold call in H. simpl bind in H.
    exec_step H. destruct x as [[]|e].
    + simpl bind in H. exec_step H. destruct x as [raw|e].
      * right; right; right.
        exists (String c q'), file, (String c' f'), raw, t.
        repeat split; auto.
      * exec_end H. right; left. exists file, (String c' f'), e.
        repeat split; auto.
    + exec_end H. right; left. exists file, (String c' f'), e.
      repeat split; auto.
  - left. exec_end H. split; [reflexivity | eauto].
Qed.

(** After the POST there is at most one more interaction, a log call. *)
Lemma exec_ask_respond_log (r : pyresult response) (t : list event)
  (res : outcome reply) :
  exec (ask_respond r) t res ->
  t = [] \/ exists lvl msg, t = [Ev (Logging lvl msg) tt].
Proof.
  intros H. apply exec_ask_respond_cases in H.
  destruct r as [resp|e].
  - destruct (resp_json resp) as [[]|e]; [..|destruct (is_value_error e)];
      destruct H as (-> & _); eauto.
  - destruct (is_request_exception e); destruct H as (-> & _); eauto.
Qed.

Lemma exec_ask_forward_shape (q : option string) (ups : list json)
  (t : list event) (res : outcome reply) :
  exec (ask_forward cfg q ups) t res ->
  exists sid r t',
    t = Ev Uuid4 sid
          :: Ev (RequestsPost (FLOWISE_API_URL cfg) (ask_payload q ups sid)
                   (ask_headers cfg) 60) r
          :: t'
    /\ exec (ask_respond r) t' res
    /\ (t' = [] \/ exists lvl msg, t' = [Ev (Logging lvl msg) tt]).
Proof.
  intros H. apply exec_ask_forward in H.
  destruct H as (sid & r & t' & -> & H).
  exists sid, r, t'. repeat split; auto.
  eapply exec_ask_respond_log; eassumption.
Qed.

Ltac forward_inv H :=
  let sid := fresh "sid" in
  let r := fresh "r" in
  let t' := fresh "t'" in
  let Hr := fresh "Hr" in
  let Hl := fresh "Hl" in
  apply exec_ask_forward_shape in H;
  destruct H as (sid & r & t' & -> & Hr & [-> | (? & ? & ->)]).


(** X5.  When storing the attachment or reading it back raises, the
    exception escapes the handler: the run ends in that fault, no
    session id is drawn, nothing is posted and nothing is logged. *)
Theorem ask_storage_failure_escapes (req : request) (t : list event)
  (res : outcome reply) (e : pyexn) :
  exec (ask req) t res ->
  In e (storage_failures t) ->
  res = Fault e /\ uuids_drawn t = [] /\ payloads_posted t = []
  /\ log_lines t = [].
Proof.
  intros H Hin.
  destruct (exec_ask_bot_cases _ _ _ H)
    as [(-> & _) | [(file' & fname' & e' & _ & _ & -> & Ht)
       | [(q' & _ & _ & Hfw)
         | (q' & file' & fname' & raw & t' & _ & _ & _ & _ & _ & _
            & -> & Hfw)]]].
  - destruct Hin.
  - destruct Ht as [-> | ->]; simpl in Hin;
      destruct Hin as [<- | []]; repeat split.
  - forward_inv Hfw; destruct Hin.
  - forward_inv Hfw; destruct Hin.
Qed.

(** X6.  Every reply of [/ask] is of one of four kinds: a 400 sent
    before anything was posted or logged; a 502 for a
    [RequestException] of the POST; a 500 for a backend body on which
    [resp.json()] raised a [ValueError]; or the success envelope
    around a decoded JSON object,
    whose status is below 400 and which is never logged. *)
Theorem ask_reply_kinds (req : request) (t : list event) (rep : reply) :
  exec (ask req) t (Done rep) ->
  (status rep = 400%Z /\ t = []
   /\ exists msg, body rep = jsonify [("error", JStr msg)])
  \/ (status rep = 502%Z
      /\ exists e, post_results t = [Exn e]
                   /\ is_request_exception e = true
                   /\ reply_field "detail" rep = Some (JStr (exn_str e)))
  \/ (status rep = 500%Z
      /\ exists resp e,
           post_results t = [Ok resp] /\ resp_json resp = Exn e
           /\ is_value_error e = true
           /\ reply_field "raw" rep = Some (JStr (text resp)))
  \/ ((status rep < 400)%Z /\ log_lines t = []
      /\ reply_field "success" rep = Some (JBool true)
      /\ exists resp d,
           post_results t = [Ok resp] /\ resp_json resp = Ok (JObj d)
           /\ reply_field "raw" rep = Some (JObj d)
           /\ (status rep = status_code resp \/ status rep = 200%Z)).
Proof.
  intros H.
  assert (Hfwd : forall q ups pre t',
             post_results pre = [] -> log_lines pre = [] ->
             exec (ask_forward cfg q ups) t' (Done rep) ->
             (status rep = 502%Z
              /\ exists e, post_results (pre ++ t') = [Exn e]
                           /\ is_request_exception e = true
                           /\ reply_field "detail" rep
                              = Some (JStr (exn_str e)))
             \/ (status rep = 500%Z
                 /\ exists resp e,
                      post_results (pre ++ t') = [Ok resp]
                      /\ resp_json resp = Exn e
                      /\ is_value_error e = true
                      /\ reply_field "raw" rep = Some (JStr (text resp)))
             \/ ((status rep < 400)%Z /\ log_lines (pre ++ t') = []
                 /\ reply_field "success" rep = Some (JBool true)
                 /\ exists resp d,
                      post_results (pre ++ t') = [Ok resp]
                      /\ resp_json resp = Ok (JObj d)
                      /\ reply_field "raw" rep = Some (JObj d)
                      /\ (status rep = status_code resp
                          \/ status rep = 200%Z))).
  { intros q ups pre t' Hp Hl Hfw.
    apply exec_ask_forward in Hfw.
    destruct Hfw as (sid & r & t'' & -> & Hr).
    apply exec_ask_respond_cases in Hr.
    rewrite post_results_app, log_lines_app, Hp, Hl.
    destruct r as [resp|e].
    - destruct (resp_json resp) as [data|e] eqn:Hj.
      + destruct data;
          try (destruct Hr as (_ & msg & Hm); discriminate).
        destruct Hr as (-> & E). inversion E; subst rep. clear E.
        right; right. simpl status.
        split; [destruct (status_code resp <? 400)%Z eqn:Hs;
                [apply Z.ltb_lt in Hs; exact Hs | reflexivity]|].
        split; [reflexivity|]. split; [reflexivity|].
        exists resp, d. repeat split; auto.
        destruct (status_code resp <? 400)%Z; auto.
      + destruct (is_value_error e) eqn:Hv.
        * destruct Hr as (-> & E). inversion E; subst rep.
          right; left. split; [reflexivity|].
          exists resp, e. repeat split; auto.
        * destruct Hr as (_ & E). discriminate.
    - destruct (is_request_exception e) eqn:He.
      + destruct Hr as (-> & E). inversion E; subst rep.
        left. split; [reflexivity|]. exists e. repeat split; auto.
      + destruct Hr as (_ & E). discriminate. }
  destruct (exec_ask_bot_cases _ _ _ H)
    as [(-> & msg & E) | [(file' & fname' & e' & _ & _ & E & _)
       | [(q' & _ & _ & Hfw)
         | (q' & file' & fname' & raw & t' & _ & _ & _ & _ & _ & _
            & -> & Hfw)]]].
  - inversion E; subst rep. left.
    split; [reflexivity|]. split; [reflexivity|]. exists msg. reflexivity.
  - discriminate.
  - right. eapply (Hfwd _ _ [] t); eauto.
  - right.
    eapply (Hfwd _ _ [Ev (FileSave (path_of fname') (stream file')) (Ok tt);
                      Ev (FileRead (path_of fname')) (Ok raw)] t'); eauto.
Qed.

(** X7.  Whatever the request, a POST made by [/ask] goes to the
    configured URL with a timeout of 60 seconds and a JSON content
    type; it carries [Authorization: Bearer <key>] when an API key is
    configured and not empty, and no [Authorization] header at all
    otherwise. *)
Theorem ask_post_settings (req : request) (t : list event)
  (res : outcome reply) (url : string) (headers : list (string * string))
  (timeout : Z) :
  exec (ask req) t res ->
  In (url, headers, timeout) (requests_posted t) ->
  url = FLOWISE_API_URL cfg /\ timeout = 60%Z
  /\ multi_get "Content-Type" headers = Some "application/json"
  /\ (forall key, FLOWISE_API_KEY cfg = Some key -> key <> "" ->
        multi_get "Authorization" headers = Some ("Bearer " ++ key)%string)
  /\ (FLOWISE_API_KEY cfg = None \/ FLOWISE_API_KEY cfg = Some "" ->
        multi_get "Authorization" headers = None).
Proof.
  intros H Hin.
  assert (E : (url, headers, timeout)
              = (FLOWISE_API_URL cfg, ask_headers cfg, 60%Z)).
  { destruct (exec_ask_bot_cases _ _ _ H)
      as [(-> & _) | [(file' & fname' & e' & _ & _ & _ & Ht)
         | [(q' & _ & _ & Hfw)
           | (q' & file' & fname' & raw & t' & _ & _ & _ & _ & _ & _
              & -> & Hfw)]]].
    - destruct Hin.
    - destruct Ht as [-> | ->]; destruct Hin.
    - forward_inv Hfw; destruct Hin as [<- | []]; reflexivity.
    - forward_inv Hfw; destruct Hin as [<- | []]; reflexivity. }
  inversion E; subst. clear E Hin.
  unfold ask_headers. repeat split.
  - intros key -> Hk. destruct key; [now elim Hk | reflexivity].
  - intros [-> | ->]; reflexivity.
Qed.

(** X8.  A request leads to at most one POST, made right after one
    draw of a session id; the payload carries the first [question]
    value of the form unchanged, and at most one upload. *)
Theorem ask_single_post (req : request) (t : list event)
  (res : outcome reply) :
  exec (ask req) t res ->
  (length (payloads_posted t) <= 1)%nat
  /\ length (uuids_drawn t) = length (payloads_posted t)
  /\ forall p, In p (payloads_posted t) ->
       exists q ups,
         multi_get "question" (form req) = Some q /\ q <> ""
         /\ payload_question p = JStr q
         /\ payload_uploads p = JArr ups /\ (length ups <= 1)%nat.
Proof.
  intros H.
  destruct (exec_ask_bot_cases _ _ _ H)
    as [(-> & _) | [(file' & fname' & e' & _ & _ & _ & Ht)
       | [(q' & Hq & Hne & Hfw)
         | (q' & file' & fname' & raw & t' & Hq & Hne & _ & _ & _ & _
            & -> & Hfw)]]].
  - simpl. repeat split; auto. intros p [].
  - destruct Ht as [-> | ->]; simpl; repeat split; auto; intros p [].
  - forward_inv Hfw; simpl; (split; [lia|]); (split; [reflexivity|]);
      intros p [<- | []]; exists q', []; repeat split; auto.
  - forward_inv Hfw; simpl; (split; [lia|]); (split; [reflexivity|]);
      intros p [<- | []]; eexists q', [_]; repeat split; auto.
Qed.

Lemma upload_mime_nonempty (file : FileStorage) (name : string) :
  upload_mime guess_type file name <> "".
Proof.
  unfold upload_mime.
  destruct (mimetype file) as [|c m]; simpl.
  - destruct (guess_type name) as [[|c m]|]; simpl; discriminate.
  - discriminate.
Qed.


(** X10.  Only [requests.RequestException] is turned into a 502: any
    other exception raised by the POST escapes the handler, and
    nothing is logged. *)
Theorem ask_other_exception_escapes (req : request) (t : list event)
  (res : outcome reply) (e : pyexn) :
  exec (ask req) t res ->
  In (Exn e) (post_results t) ->
  is_request_exception e = false ->
  res = Fault e /\ log_lines t = [].
Proof.
  intros H Hin He.
  destruct (ask_bot_backend_answer _ _ _ _ _ _ _ _ H Hin) as (t' & Hr & ->).
  apply exec_ask_respond_cases in Hr. rewrite He in Hr.
  destruct Hr as (-> & ->). split; reflexivity.
Qed.

Lemma answer_if_truthy_truthy (d : list (string * json)) :
  d <> [] -> PyJson.truthy (answer_if_truthy d) = true.
Proof.
  intros Hd. unfold answer_if_truthy.
  assert (Hobj : PyJson.truthy (JObj d) = true)
    by (destruct d; [now elim Hd | reflexivity]).
  destruct (PyJson.lookup "text" d) as [v|].
  - destruct (PyJson.truthy v) eqn:Hv; [assumption|].
    destruct (PyJson.lookup "answer" d) as [w|]; [|assumption].
    destruct (PyJson.truthy w) eqn:Hw; assumption.
  - destruct (PyJson.lookup "answer" d) as [w|]; [|assumption].
    destruct (PyJson.truthy w) eqn:Hw; assumption.
Qed.

(** X11.  The [answer] of a success envelope is never an empty or null
    value taken from the backend: unless the backend sent the empty
    object (which is then the answer), the answer is true in Python's
    sense, and it is either an entry of the body or the body itself. *)
Theorem ask_answer_never_falsy (req : request) (t : list event)
  (res : outcome reply) (resp : response) (d : list (string * json)) :
  exec (ask req) t res ->
  In (Ok resp) (post_results t) ->
  resp_json resp = Ok (JObj d) ->
  exists rep a,
    res = Done rep /\ reply_field "answer" rep = Some a
    /\ (d <> [] -> PyJson.truthy a = true)
    /\ (d = [] -> a = JObj [])
    /\ (a = JObj d \/ PyJson.lookup "text" d = Some a
        \/ PyJson.lookup "answer" d = Some a).
Proof.
  intros H Hin Hj.
  rewrite (ask_bot_status_object_body _ _ _ _ _ _ _ _ _ H Hin Hj).
  eexists _, (answer_if_truthy d). split; [reflexivity|].
  split; [reflexivity|]. split; [apply answer_if_truthy_truthy|].
  split; [intros ->; reflexivity|].
  unfold answer_if_truthy.
  destruct (PyJson.lookup "text" d) as [v|].
  - destruct (PyJson.truthy v); [auto|].
    destruct (PyJson.lookup "answer" d) as [w|]; [|auto].
    destruct (PyJson.truthy w); auto.
  - destruct (PyJson.lookup "answer" d) as [w|]; [|auto].
    destruct (PyJson.truthy w); auto.
Qed.

Lemma str_length_append (a b : string) :
  String.length (a ++ b) = String.length a + String.length b.
Proof. induction a as [|x a IH]; simpl; [reflexivity | now rewrite IH]. Qed.

Lemma slice_to_length (n : nat) (s : string) :
  String.length (PyStr.slice_to n s) = Nat.min n (String.length s).
Proof.
  unfold PyStr.slice_to. revert s.
  induction n as [|n IH]; intros [|c s]; simpl; try reflexivity.
  now rewrite IH.
Qed.

Lemma slice_to_whole (n : nat) (s : string) :
  String.length s <= n -> PyStr.slice_to n s = s.
Proof.
  unfold PyStr.slice_to. revert s.
  induction n as [|n IH]; intros [|c s]; simpl; try reflexivity.
  - intros Hl. inversion Hl.
  - intros Hl. rewrite IH; [reflexivity | lia].
Qed.


End AskCases.

(* ================================================================= *)
(** ** [send_itinerary]: bodies and delivery *)

Section MailCases.

Variable as_string : mime_text -> pyresult string.
Variable mimetext_raises : string -> option pyexn.
Variable cfg : config.

Local Notation "'send'" := (send_itinerary as_string mimetext_raises cfg).

(** X13.  A body that decodes to a JSON value that is false in
    Python's sense ([null], [false], [0], the empty string, [[]],
    [{}]) is replaced by the empty object by [or {}], so the reply is
    the 400 for a missing recipient. *)
Theorem send_itinerary_falsy_body (req : request) (v : json) :
  get_json req = Ok (Some v) ->
  PyJson.truthy v = false ->
  send req = Ret (mk_reply (jsonify [("error", JStr "email is required")]) 400).
Proof.
  intros Hj Hv. unfold send_itinerary. rewrite Hj, Hv. reflexivity.
Qed.

(** X14.  A body that decodes to a JSON value that is true in Python's
    sense but is not an object (a non-empty array or string, a
    non-zero number, [true]) makes [data.get] raise [AttributeError]:
    the handler ends in that fault without any reply and without any
    interaction. *)
Theorem send_itinerary_non_object_body_faults (req : request) (v : json) :
  get_json req = Ok (Some v) ->
  PyJson.truthy v = true ->
  (forall d, v <> JObj d) ->
  exists msg,
    send req = Raise (mk_exn AttributeError msg)
    /\ forall t res, exec (send req) t res ->
         t = [] /\ res = Fault (mk_exn AttributeError msg).
Proof.
  intros Hj Hv Hn. eexists.
  assert (E : send req
              = Raise (mk_exn AttributeError "object has no attribute 'get'")).
  { unfold send_itinerary. rewrite Hj, Hv.
    destruct v; try reflexivity. now elim (Hn d). }
  split; [exact E|]. intros t res H. rewrite E in H. exact H.
Qed.

(** With recipient, credentials and a text itinerary the handler is the
    SMTP block followed by the choice of the reply. *)
Lemma send_itinerary_delivers (req : request) (d : list (string * json))
  (body_text : string) :
  get_json req = Ok (Some (JObj d)) ->
  PyJson.truthy (PyJson.dict_get d "email" JNull) = true ->
  PyStr.truthy_opt (GMAIL_USER cfg) = true ->
  PyStr.truthy_opt (GMAIL_PASS cfg) = true ->
  PyJson.dict_get d "itinerary" (JStr "") = JStr body_text ->
  send req
  = match mimetext_raises body_text with
    | Some e => Raise e
    | None =>
        bind (smtp_block as_string cfg (PyJson.dict_get d "email" JNull)
                (itinerary_message cfg d body_text))
          (fun r =>
             match r with
             | Ok _ =>
                 Ret (mk_reply (jsonify [("success", JBool true);
                                         ("status", JStr "Email sent")]) 200)
             | Exn e =>
                 bind (trigger (Logging LogException
                                  "Failed to send itinerary email"))
                   (fun _ =>
                      Ret (mk_reply
                             (jsonify [("error", JStr "failed to send email");
                                       ("detail", JStr (exn_str e))]) 500))
             end)
    end.
Proof.
  intros Hj He Hu Hp Hi. unfold send_itinerary.
  rewrite Hj, (truthy_email_nonempty _ He). cbn [py_get bind].
  rewrite He, Hu, Hp, Hi. reflexivity.
Qed.

Ltac smtp_step H :=
  let x := fresh "x" in
  let t := fresh "t" in
  let E := fresh "E" in
  cbn [bind trigger smtp_block smtp_exit exec] in H;
  destruct H as (x & t & E & H); subst;
  try (destruct x as [[]|?]).

Ltac smtp_end H :=
  cbn [bind trigger smtp_block smtp_exit exec] in H;
  repeat match type of H with
         | exists _, _ =>
             let x := fresh "x" in
             let t := fresh "t" in
             let E := fresh "E" in
             destruct H as (x & t & E & H); subst; destruct x
         end;
  let E1 := fresh "E" in
  destruct H as (E1 & H); subst.

(** X15.  Once the recipient, both credentials and a text itinerary
    are there and [MIMEText] has accepted that text, the handler does
    not fault any more.  It opens one connection, to
    [smtp.gmail.com:465], and replies either 200 [Email sent] (then no
    SMTP call raised, nothing was logged, it logged in with the
    configured account and handed exactly one message to [sendmail],
    from the configured sender to the recipient alone) or 500
    [failed to send email] with the text of the exception as detail
    and one line in the log. *)
Theorem send_itinerary_delivery (req : request) (d : list (string * json))
  (body_text : string) :
  get_json req = Ok (Some (JObj d)) ->
  PyJson.truthy (PyJson.dict_get d "email" JNull) = true ->
  PyStr.truthy_opt (GMAIL_USER cfg) = true ->
  PyStr.truthy_opt (GMAIL_PASS cfg) = true ->
  PyJson.dict_get d "itinerary" (JStr "") = JStr body_text ->
  mimetext_raises body_text = None ->
  forall t res, exec (send req) t res ->
    smtp_connections t = [("smtp.gmail.com", 465%Z)]
    /\ exists rep,
         res = Done rep
         /\ ((rep = mk_reply (jsonify [("success", JBool true);
                                       ("status", JStr "Email sent")]) 200
              /\ smtp_failures t = [] /\ log_lines t = []
              /\ smtp_logins t = [(GMAIL_USER cfg, GMAIL_PASS cfg)]
              /\ exists s,
                   as_string (itinerary_message cfg d body_text) = Ok s
                   /\ smtp_messages t
                      = [(GMAIL_USER cfg,
                          [PyJson.dict_get d "email" JNull], s)])
             \/ (exists e,
                   rep = mk_reply
                           (jsonify [("error", JStr "failed to send email");
                                     ("detail", JStr (exn_str e))]) 500
                   /\ log_lines t = ["Failed to send itinerary email"]
                   /\ (In e (smtp_failures t)
                       \/ as_string (itinerary_message cfg d body_text)
                          = Exn e))).
Proof.
  intros Hj He Hu Hp Hi Hm t res H.
  rewrite (send_itinerary_delivers _ _ _ Hj He Hu Hp Hi), Hm in H.
  smtp_step H.
  - smtp_step H.
    + destruct (as_string (itinerary_message cfg d body_text)) as [s|e0] eqn:Ha.
      * smtp_step H.
        -- smtp_step H.
           ++ smtp_end H. split; [reflexivity|]. eexists. split; [reflexivity|].
              left. repeat split. exists s. split; reflexivity.
           ++ smtp_end H. split; [reflexivity|]. eexists. split; [reflexivity|].
              right. eexists. repeat split. left. simpl. auto.
        -- smtp_step H.
           ++ smtp_end H. split; [reflexivity|]. eexists. split; [reflexivity|].
              right. eexists. repeat split. left. simpl. auto.
           ++ smtp_end H. split; [reflexivity|]. eexists. split; [reflexivity|].
              right. eexists. repeat split. left. simpl. auto.
      * smtp_step H.
        -- smtp_end H. split; [reflexivity|]. eexists. split; [reflexivity|].
           right. eexists. repeat split. right. reflexivity.
        -- smtp_end H. split; [reflexivity|]. eexists. split; [reflexivity|].
           right. eexists. repeat split. left. simpl. auto.
    + smtp_step H.
      * smtp_end H. split; [reflexivity|]. eexists. split; [reflexivity|].
        right. eexists. repeat split. left. simpl. auto.
      * smtp_end H. split; [reflexivity|]. eexists. split; [reflexivity|].
        right. eexists. repeat split. left. simpl. auto.
  - smtp_end H. split; [reflexivity|]. eexists. split; [reflexivity|].
    right. eexists. repeat split. left. simpl. auto.
Qed.

(** Every message handed to [sendmail] is the rendering of the message
    built from the body, sent from the configured account to the
    recipient alone. *)
Lemma send_itinerary_messages (req : request) (d : list (string * json))
  (body_text : string) :
  get_json req = Ok (Some (JObj d)) ->
  PyJson.truthy (PyJson.dict_get d "email" JNull) = true ->
  PyStr.truthy_opt (GMAIL_USER cfg) = true ->
  PyStr.truthy_opt (GMAIL_PASS cfg) = true ->
  PyJson.dict_get d "itinerary" (JStr "") = JStr body_text ->
  forall t res, exec (send req) t res ->
  forall m, In m (smtp_messages t) ->
    exists s, as_string (itinerary_message cfg d body_text) = Ok s
              /\ m = (GMAIL_USER cfg, [PyJson.dict_get d "email" JNull], s).
Proof.
  intros Hj He Hu Hp Hi t res H m Hm.
  rewrite (send_itinerary_delivers _ _ _ Hj He Hu Hp Hi) in H.
  destruct (mimetext_raises body_text) as [e|];
    [destruct H as (-> & _); destruct Hm|].
  smtp_step H.
  - smtp_step H.
    + destruct (as_string (itinerary_message cfg d body_text)) as [s|e0] eqn:Ha.
      * smtp_step H; smtp_step H; smtp_end H;
          simpl in Hm; destruct Hm as [<- | []]; eauto.
      * smtp_step H; smtp_end H; destruct Hm.
    + smtp_step H; smtp_end H; destruct Hm.
  - smtp_end H. destruct Hm.
Qed.

(** X16.  The handler touches SMTP only for a body that is a JSON
    object with a true [email] entry and with both credentials
    configured and not empty: in every other run no connection is
    opened, no login is tried and no message is sent. *)
Theorem send_itinerary_smtp_only_when_ready (req : request)
  (t : list event) (res : outcome reply) :
  exec (send req) t res ->
  smtp_connections t <> [] \/ smtp_logins t <> [] \/ smtp_messages t <> [] ->
  exists d,
    get_json req = Ok (Some (JObj d))
    /\ PyJson.truthy (PyJson.dict_get d "email" JNull) = true
    /\ PyStr.truthy_opt (GMAIL_USER cfg) = true
    /\ PyStr.truthy_opt (GMAIL_PASS cfg) = true.
Proof.
  intros H Hs.
  assert (Hquiet : forall t0 : list event,
             t0 = [] \/ (exists lvl msg, t0 = [Ev (Logging lvl msg) tt]) ->
             ~ (smtp_connections t0 <> [] \/ smtp_logins t0 <> []
                \/ smtp_messages t0 <> [])).
  { intros t0 [-> | (lvl & msg & ->)] [Hc | [Hc | Hc]]; now apply Hc. }
  unfold send_itinerary in H.
  destruct (get_json req) as [[v|]|e] eqn:Hj.
  - destruct (PyJson.truthy v) eqn:Hv.
    + destruct v; try (simpl in H; destruct H as (-> & _);
                       exfalso; eapply Hquiet; [|exact Hs]; auto).
      cbn [py_get bind] in H.
      destruct (PyJson.truthy (PyJson.dict_get d "email" JNull)) eqn:He.
      * simpl negb in H. cbv iota in H.
        destruct (PyStr.truthy_opt (GMAIL_USER cfg)) eqn:Hu.
        -- destruct (PyStr.truthy_opt (GMAIL_PASS cfg)) eqn:Hp.
           ++ exists d. repeat split; auto.
           ++ simpl in H. destruct H as ([] & t' & -> & -> & _).
              exfalso. eapply Hquiet; [|exact Hs]. eauto.
        -- simpl in H. destruct H as ([] & t' & -> & -> & _).
           exfalso. eapply Hquiet; [|exact Hs]. eauto.
      * simpl in H. destruct H as (-> & _).
        exfalso. eapply Hquiet; [|exact Hs]. auto.
    + simpl in H. destruct H as (-> & _).
      exfalso. eapply Hquiet; [|exact Hs]. auto.
  - simpl in H. destruct H as (-> & _).
    exfalso. eapply Hquiet; [|exact Hs]. auto.
  - simpl in H. destruct H as (-> & _).
    exfalso. eapply Hquiet; [|exact Hs]. auto.
Qed.

(** X17.  When the body names no [itinerary], the message text is
    empty; the subject is [Travel Guide Bot: Landmark Details] when
    the body names no [subject], and whatever value stands under
    [subject] otherwise ([null] included: the default applies to a
    missing key only).  Sender and single recipient are the
    configured account and the [email] entry. *)
Theorem send_itinerary_message_defaults (req : request)
  (d : list (string * json)) :
  get_json req = Ok (Some (JObj d)) ->
  PyJson.truthy (PyJson.dict_get d "email" JNull) = true ->
  PyStr.truthy_opt (GMAIL_USER cfg) = true ->
  PyStr.truthy_opt (GMAIL_PASS cfg) = true ->
  PyJson.lookup "itinerary" d = None ->
  forall t res, exec (send req) t res ->
  forall from_addr to_addrs s,
    In (from_addr, to_addrs, s) (smtp_messages t) ->
    from_addr = GMAIL_USER cfg
    /\ to_addrs = [PyJson.dict_get d "email" JNull]
    /\ (PyJson.lookup "subject" d = None ->
        as_string (mk_mime "" (JStr "Travel Guide Bot: Landmark Details")
                     (GMAIL_USER cfg) (PyJson.dict_get d "email" JNull))
        = Ok s)
    /\ (forall v, PyJson.lookup "subject" d = Some v ->
        as_string (mk_mime "" v (GMAIL_USER cfg)
                     (PyJson.dict_get d "email" JNull))
        = Ok s).
Proof.
  intros Hj He Hu Hp Hi t res H from_addr to_addrs s Hm.
  assert (Hi' : PyJson.dict_get d "itinerary" (JStr "") = JStr "")
    by (unfold PyJson.dict_get; now rewrite Hi).
  destruct (send_itinerary_messages _ _ _ Hj He Hu Hp Hi' _ _ H _ Hm)
    as (s' & Ha & E).
  inversion E; subst. clear E. repeat split.
  - intros Hs. rewrite <- Ha. unfold itinerary_message, PyJson.dict_get.
    now rewrite Hs.
  - intros v Hs. rewrite <- Ha. unfold itinerary_message, PyJson.dict_get.
    now rewrite Hs.
Qed.

End MailCases.

(* ================================================================= *)
(** ** Concrete runs, continued *)

Local Notation "'fixture_ask'" :=
  (ask_bot Sample.secure_filename Sample.guess_type Sample.b64encode
     Fixture.cfg).
Local Notation "'fixture_send'" :=
  (send_itinerary Sample.as_string Sample.mimetext_raises Fixture.cfg).

Lemma tower_png_allowed : extension_allowed "Tower.PNG".
Proof.
  exists "PNG", "png". repeat split.
  - exists "Tower". split; reflexivity.
  - simpl. left. reflexivity.
Qed.

Lemma run_png :
  exec (fixture_ask Fixture.req_png)
    (Fixture.png_run Fixture.photo_bytes "sid-9" (Ok Sample.resp_paris))
    (Done Fixture.paris_reply).
Proof. run_exec. Qed.


(** The disk is full: the handler faults and posts nothing. *)
Lemma ask_storage_failure_escapes_witness :
  payloads_posted
    [Ev (FileSave Fixture.png_path Fixture.photo_bytes)
       (Exn Fixture.disk_full)] = []
  /\ log_lines
       [Ev (FileSave Fixture.png_path Fixture.photo_bytes)
          (Exn Fixture.disk_full)] = [].
Proof.
  destruct (ask_storage_failure_escapes
              Sample.secure_filename Sample.guess_type Sample.b64encode
              Fixture.cfg Fixture.req_png
              [Ev (FileSave Fixture.png_path Fixture.photo_bytes)
                 (Exn Fixture.disk_full)]
              (Fault Fixture.disk_full) Fixture.disk_full)
    as (_ & _ & Hp & Hl).
  - run_exec.
  - simpl. left. reflexivity.
  - split; assumption.
Defined.

(** A backend 404 with a JSON object is wrapped and sent as 200. *)
Lemma ask_reply_kinds_witness :
  exists rep,
    exec (fixture_ask Sample.req) (Fixture.run "sid-3" (Ok Fixture.resp_404))
      (Done rep)
    /\ status rep = 200%Z
    /\ ((status rep = 400%Z /\ Fixture.run "sid-3" (Ok Fixture.resp_404) = []
         /\ exists msg, body rep = jsonify [("error", JStr msg)])
        \/ (status rep = 502%Z
            /\ exists e,
                 post_results (Fixture.run "sid-3" (Ok Fixture.resp_404))
                 = [Exn e]
                 /\ is_request_exception e = true
                 /\ reply_field "detail" rep = Some (JStr (exn_str e)))
        \/ (status rep = 500%Z
            /\ exists resp e,
                 post_results (Fixture.run "sid-3" (Ok Fixture.resp_404))
                 = [Ok resp]
                 /\ resp_json resp = Exn e
                 /\ is_value_error e = true
                 /\ reply_field "raw" rep = Some (JStr (text resp)))
        \/ ((status rep < 400)%Z
            /\ log_lines (Fixture.run "sid-3" (Ok Fixture.resp_404)) = []
            /\ reply_field "success" rep = Some (JBool true)
            /\ exists resp d,
                 post_results (Fixture.run "sid-3" (Ok Fixture.resp_404))
                 = [Ok resp]
                 /\ resp_json resp = Ok (JObj d)
                 /\ reply_field "raw" rep = Some (JObj d)
                 /\ (status rep = status_code resp \/ status rep = 200%Z))).
Proof.
  assert (H : exec (fixture_ask Sample.req)
                (Fixture.run "sid-3" (Ok Fixture.resp_404))
                (Done (mk_reply
                         (jsonify [("success", JBool true);
                                   ("answer", JStr "Paris");
                                   ("raw", JObj [("answer", JStr "Paris")])])
                         200))) by run_exec.
  eexists. split; [exact H|]. split; [reflexivity|].
  exact (ask_reply_kinds
           Sample.secure_filename Sample.guess_type Sample.b64encode
           Fixture.cfg Sample.req _ _ H).
Defined.

(** With the key [secret-key] the POST carries the bearer header. *)
Lemma ask_post_settings_witness :
  multi_get "Authorization" (ask_headers Fixture.cfg)
  = Some "Bearer secret-key".
Proof.
  destruct (ask_post_settings
              Sample.secure_filename Sample.guess_type Sample.b64encode
              Fixture.cfg Sample.req
              (Fixture.run "sid-3" (Ok Sample.resp_paris)) (Done Fixture.paris_reply)
              (FLOWISE_API_URL Fixture.cfg) (ask_headers Fixture.cfg) 60)
    as (_ & _ & _ & Hkey & _).
  - run_exec.
  - simpl. left. reflexivity.
  - apply (Hkey "secret-key"); [reflexivity | discriminate].
Defined.

(** One POST, with the question as typed. *)
Lemma ask_single_post_witness :
  (length (payloads_posted (Fixture.run "sid-3" (Ok Sample.resp_paris))) <= 1)%nat
  /\ length (uuids_drawn (Fixture.run "sid-3" (Ok Sample.resp_paris)))
     = length (payloads_posted (Fixture.run "sid-3" (Ok Sample.resp_paris))).
Proof.
  destruct (ask_single_post
              Sample.secure_filename Sample.guess_type Sample.b64encode
              Fixture.cfg Sample.req
              (Fixture.run "sid-3" (Ok Sample.resp_paris)) (Done Fixture.paris_reply))
    as (H1 & H2 & _).
  - run_exec.
  - split; assumption.
Defined.


(** An exception that is no [RequestException] goes through. *)
Lemma ask_other_exception_escapes_witness :
  log_lines (Fixture.run "sid-3" (Exn Fixture.type_error)) = [].
Proof.
  destruct (ask_other_exception_escapes
              Sample.secure_filename Sample.guess_type Sample.b64encode
              Fixture.cfg Sample.req
              (Fixture.run "sid-3" (Exn Fixture.type_error))
              (Fault Fixture.type_error) Fixture.type_error)
    as (_ & Hl).
  - run_exec.
  - simpl. left. reflexivity.
  - reflexivity.
  - exact Hl.
Defined.

(** [{answer: Paris}] gives the answer [Paris]. *)
Lemma ask_answer_never_falsy_witness :
  exists rep a,
    Done (mk_reply
            (jsonify [("success", JBool true);
                      ("answer", JStr "Paris");
                      ("raw", JObj [("answer", JStr "Paris")])]) 200)
    = Done rep
    /\ reply_field "answer" rep = Some a
    /\ PyJson.truthy a = true.
Proof.
  destruct (ask_answer_never_falsy
              Sample.secure_filename Sample.guess_type Sample.b64encode
              Fixture.cfg Sample.req
              (Fixture.run "sid-3" (Ok Fixture.resp_404))
              (Done (mk_reply
                       (jsonify [("success", JBool true);
                                 ("answer", JStr "Paris");
                                 ("raw", JObj [("answer", JStr "Paris")])])
                       200))
              Fixture.resp_404 [("answer", JStr "Paris")])
    as (rep & a & E & Ha & Ht & _).
  - run_exec.
  - simpl. left. reflexivity.
  - reflexivity.
  - exists rep, a. repeat split; auto. apply Ht. discriminate.
Defined.


(** The body [[]] is treated like no body. *)
Lemma send_itinerary_falsy_body_witness :
  fixture_send Fixture.req_mail_array
  = Ret (mk_reply (jsonify [("error", JStr "email is required")]) 400).
Proof.
  apply (send_itinerary_falsy_body Sample.as_string Sample.mimetext_raises Fixture.cfg
           Fixture.req_mail_array (JArr [])); reflexivity.
Defined.

(** The body [7] makes the handler fault. *)
Lemma send_itinerary_non_object_body_faults_witness :
  exists msg,
    fixture_send Fixture.req_mail_number
    = Raise (mk_exn AttributeError msg).
Proof.
  destruct (send_itinerary_non_object_body_faults
              Sample.as_string Sample.mimetext_raises Fixture.cfg Fixture.req_mail_number (JInt 7))
    as (msg & E & _).
  - reflexivity.
  - reflexivity.
  - intros d. discriminate.
  - exists msg. exact E.
Defined.

Lemma run_mail :
  exec (fixture_send Fixture.req_mail)
    (Fixture.mail_run (JStr "user@example.com") "Day 1: Louvre")
    (Done Fixture.mail_sent).
Proof. run_exec. Qed.

(** A delivery that goes through. *)
Lemma send_itinerary_delivery_witness :
  smtp_connections
    (Fixture.mail_run (JStr "user@example.com") "Day 1: Louvre")
  = [("smtp.gmail.com", 465%Z)].
Proof.
  apply (send_itinerary_delivery Sample.as_string Sample.mimetext_raises Fixture.cfg
           Fixture.req_mail Fixture.mail_body "Day 1: Louvre"
           eq_refl eq_refl eq_refl eq_refl eq_refl eq_refl
           (Fixture.mail_run (JStr "user@example.com") "Day 1: Louvre")
           (Done Fixture.mail_sent) run_mail).
Defined.

(** SMTP traffic implies a complete request. *)
Lemma send_itinerary_smtp_only_when_ready_witness :
  exists d,
    get_json Fixture.req_mail = Ok (Some (JObj d))
    /\ PyJson.truthy (PyJson.dict_get d "email" JNull) = true
    /\ PyStr.truthy_opt (GMAIL_USER Fixture.cfg) = true
    /\ PyStr.truthy_opt (GMAIL_PASS Fixture.cfg) = true.
Proof.
  apply (send_itinerary_smtp_only_when_ready Sample.as_string Sample.mimetext_raises Fixture.cfg
           Fixture.req_mail
           (Fixture.mail_run (JStr "user@example.com") "Day 1: Louvre")
           (Done Fixture.mail_sent) run_mail).
  left. simpl. discriminate.
Defined.

Lemma run_mail_bare :
  exec (fixture_send Fixture.req_mail_bare)
    (Fixture.mail_run (JStr "user@example.com") "")
    (Done Fixture.mail_sent).
Proof. run_exec. Qed.

(** Recipient only: empty text, default subject. *)
Lemma send_itinerary_message_defaults_witness :
  Sample.as_string
    (mk_mime "" (JStr "Travel Guide Bot: Landmark Details")
       (GMAIL_USER Fixture.cfg) (JStr "user@example.com"))
  = Ok "".
Proof.
  destruct (send_itinerary_message_defaults Sample.as_string Sample.mimetext_raises Fixture.cfg
              Fixture.req_mail_bare Fixture.mail_body_bare
              eq_refl eq_refl eq_refl eq_refl eq_refl
              (Fixture.mail_run (JStr "user@example.com") "")
              (Done Fixture.mail_sent) run_mail_bare
              (GMAIL_USER Fixture.cfg) [JStr "user@example.com"] "")
    as (_ & _ & Hd & _).
  - simpl. left. reflexivity.
  - apply Hd. reflexivity.
Defined.

(* ================================================================= *)
(** ** Session ids: what the handler adds to the generator *)

(** A run either stops before any id is drawn (and then a reply is a
    400), or draws one id and posts one payload carrying it. *)
Lemma ask_bot_run_draw sf gt b64 cfg (req : request) (t : list event)
  (res : outcome reply) :
  exec (ask_bot sf gt b64 cfg req) t res ->
  (uuids_drawn t = [] /\ payloads_posted t = []
   /\ forall rep, res = Done rep -> status rep = 400%Z)
  \/ exists sid p,
       uuids_drawn t = [sid] /\ payloads_posted t = [p]
       /\ payload_session_id p = JStr sid.
Proof.
  intros H.
  destruct (exec_ask_bot_cases _ _ _ _ _ _ _ H)
    as [(-> & msg & ->) | [(file' & fname' & e' & _ & _ & -> & Ht)
       | [(q' & _ & _ & Hfw)
         | (q' & file' & fname' & raw & t' & _ & _ & _ & _ & _ & _
            & -> & Hfw)]]].
  - left. repeat split. intros rep E. inversion E. reflexivity.
  - left. destruct Ht as [-> | ->]; repeat split; intros rep E; discriminate.
  - right. apply exec_ask_forward_shape in Hfw.
    destruct Hfw as (sid & r & t' & -> & _ & [-> | (lvl & msg & ->)]);
      eexists sid, _; repeat split.
  - right. apply exec_ask_forward_shape in Hfw.
    destruct Hfw as (sid & r & t'' & -> & _ & [-> | (lvl & msg & ->)]);
      eexists sid, _; repeat split.
Qed.




(* ================================================================= *)
(** ** Exceptions the handlers do not catch *)

(** C10 at a body that cannot be decoded without being a
    [ValueError]: a body nested too deeply makes
    [request.get_json(force=True, silent=True)] raise
    [RecursionError], which [silent] does not swallow and line 132
    does not catch.  The handler ends in that fault instead of the 400
    for a missing recipient. *)
Theorem send_itinerary_deep_body_faults :
  send_itinerary Sample.as_string Sample.mimetext_raises Sample.cfg
    Sample.req_mail_deep
  = Raise Sample.recursion_error
  /\ forall t res,
       exec (send_itinerary Sample.as_string Sample.mimetext_raises
               Sample.cfg Sample.req_mail_deep) t res ->
       t = [] /\ res = Fault Sample.recursion_error.
Proof.
  split; [reflexivity|]. intros t res H. exact H.
Qed.

Section Uncaught.

Variable secure_filename : string -> string.
Variable guess_type : string -> option string.
Variable b64encode : list Byte.byte -> string.
Variable as_string : mime_text -> pyresult string.
Variable mimetext_raises : string -> option pyexn.
Variable cfg : config.

(** X19.  Only a [ValueError] of [resp.json()] is turned into the 500:
    any other exception it raises (a [RecursionError] on a body nested
    too deeply, for instance) escapes the [/ask] handler, and nothing
    is logged. *)
Theorem ask_decode_other_exception_escapes (req : request)
  (t : list event) (res : outcome reply) (resp : response) (e : pyexn) :
  exec (ask_bot secure_filename guess_type b64encode cfg req) t res ->
  In (Ok resp) (post_results t) ->
  resp_json resp = Exn e ->
  is_value_error e = false ->
  res = Fault e /\ log_lines t = [].
Proof.
  intros H Hin Hj He.
  destruct (ask_bot_backend_answer _ _ _ _ _ _ _ _ H Hin) as (t' & Hr & ->).
  apply exec_ask_respond_cases in Hr. rewrite Hj, He in Hr.
  destruct Hr as (-> & ->). split; reflexivity.
Qed.

(** X20.  [MIMEText(itinerary, "plain")] is built before the [try]:
    when it raises for the text of the itinerary, recipient and
    credentials being there, the exception escapes the handler, which
    makes no reply, logs nothing and opens no SMTP connection. *)
Theorem send_itinerary_mimetext_failure_escapes (req : request)
  (d : list (string * json)) (body_text : string) (e : pyexn) :
  get_json req = Ok (Some (JObj d)) ->
  PyJson.truthy (PyJson.dict_get d "email" JNull) = true ->
  PyStr.truthy_opt (GMAIL_USER cfg) = true ->
  PyStr.truthy_opt (GMAIL_PASS cfg) = true ->
  PyJson.dict_get d "itinerary" (JStr "") = JStr body_text ->
  mimetext_raises body_text = Some e ->
  send_itinerary as_string mimetext_raises cfg req = Raise e
  /\ forall t res,
       exec (send_itinerary as_string mimetext_raises cfg req) t res ->
       t = [] /\ res = Fault e.
Proof.
  intros Hj He Hu Hp Hi Hm.
  assert (E : send_itinerary as_string mimetext_raises cfg req = Raise e).
  { rewrite (send_itinerary_delivers _ _ _ _ _ _ Hj He Hu Hp Hi), Hm.
    reflexivity. }
  split; [exact E|]. intros t res H. rewrite E in H. exact H.
Qed.

End Uncaught.

(** A backend body of brackets without end. *)
Lemma ask_decode_other_exception_escapes_witness :
  log_lines (Sample.run "sid-1" (Ok Sample.resp_deep)) = [].
Proof.
  destruct (ask_decode_other_exception_escapes
              Sample.secure_filename Sample.guess_type Sample.b64encode
              Sample.cfg Sample.req
              (Sample.run "sid-1" (Ok Sample.resp_deep))
              (Fault Sample.recursion_error)
              Sample.resp_deep Sample.recursion_error)
    as (_ & Hl).
  - run_exec.
  - simpl. left. reflexivity.
  - reflexivity.
  - reflexivity.
  - exact Hl.
Defined.

(** An itinerary that [MIMEText] refuses. *)
Lemma send_itinerary_mimetext_failure_escapes_witness :
  send_itinerary Sample.as_string Fixture.mimetext_raises Fixture.cfg
    Fixture.req_mail_unencodable
  = Raise Fixture.encode_error.
Proof.
  apply (send_itinerary_mimetext_failure_escapes
           Sample.as_string Fixture.mimetext_raises Fixture.cfg
           Fixture.req_mail_unencodable
           [("email", JStr "user@example.com");
            ("itinerary", JStr Fixture.unencodable)]
           Fixture.unencodable Fixture.encode_error);
    reflexivity.
Defined.
